(** * Climate-risk screening and loan-eligibility rules: a shallow embedding

    This development embeds the decision logic of two Streamlit programs,
    [climate_risk.py] (class [ClimateRiskScreeningTool]) and
    [risk_score_app.py] (the inline "Step 2" decision logic), and checks the
    statements of their specification against it.

    Modelling conventions.
    - Python exceptions are an explicit error monad [exc]; [try/except] is
      [try_except].
    - A one-row [pandas.DataFrame] is a finite map from column name to the
      cell of row 0, so [df[col].iloc[0]] is a lookup that raises [KeyError].
    - Numbers come in two embeddings.  The modules [Py] and
      [ClimateRiskScreeningTool] take them as exact rationals [Q]; they
      carry the properties that rest on comparisons, on the order of the
      rules, on the control flow and on the weights as decimal numbers,
      which the rounding of the arithmetic does not affect.  The module
      [B64] embeds the same methods over binary64 floats, operation by
      operation and in the order of the source ([sum] adds from 0, left to
      right); it carries the properties that depend on the computed values:
      the score, its rounding, and the quotient footprint / revenue.
    - A cell of [B64] is a [str] or a float, which is what the form of the
      page submits; the cells read with [.iloc[0]] are then numpy scalars,
      whose division by a zero is an infinity or a NaN and does not raise.
      Python integers as cells are outside both embeddings.
    - Text is a [string] of code points below 256, on which [str.lower] is
      the Latin-1 case mapping.
    - Dictionaries that are iterated ([.items()]) are association lists in
      definition order, which is the iteration order of a Python dict.
    - Logging is not observable by the callers and is left out. *)

From Stdlib Require Import Ascii String QArith Qround Lqa.
From Stdlib Require Import Floats.
From stdpp Require Import gmap strings list.

(** ** The fragment of Python used by the two programs *)

Module Py.

Inductive exn : Type :=
  | KeyError (key : string)
  | TypeError
  | AttributeError
  | ValueError (msg : string).

Inductive exc (A : Type) : Type :=
  | Return (a : A)
  | Raise (e : exn).

Arguments Return {A} a.
Arguments Raise {A} e.

#[global] Instance exc_ret : MRet exc := λ A a, Return a.

#[global] Instance exc_bind : MBind exc := λ A B f m,
  match m with
  | Return a => f a
  | Raise e => Raise e
  end.

(** [try: body  except Exception as e: handler e] *)
Definition try_except {A} (body : exc A) (handler : exn → exc A) : exc A :=
  match body with
  | Return a => Return a
  | Raise e => handler e
  end.

(** A cell of a data frame (or a JSON scalar): text or number. *)
Inductive value : Type :=
  | Str (s : string)
  | Num (q : Q).

(** [x < y] and [x <= y] on numbers. *)
Definition Qleb (x y : Q) : bool := Qle_bool x y.

Definition Qltb (x y : Q) : bool := negb (Qle_bool y x).

(** The result of a true division of numpy scalars. *)
Inductive float64 : Type :=
  | Finite (q : Q)
  | PosInf
  | NegInf
  | NaN.

(** [x / y] on the numpy scalars that [.iloc[0]] returns.  Unlike the division
    of Python's own numbers, a zero divisor raises nothing there: numpy
    warns and returns an infinity of the sign of the dividend, or NaN for
    0/0. *)
Definition truediv (x y : Q) : float64 :=
  if Qeq_bool y 0 then
    if Qltb 0 x then PosInf
    else if Qltb x 0 then NegInf
    else NaN
  else Finite (x / y).

(** [r > k] and [r < k] for a quotient [r] and a finite constant [k];
    every comparison with NaN is false. *)
Definition float64_gt (r : float64) (k : Q) : bool :=
  match r with
  | Finite q => Qltb k q
  | PosInf => true
  | NegInf => false
  | NaN => false
  end.

Definition float64_lt (r : float64) (k : Q) : bool :=
  match r with
  | Finite q => Qltb q k
  | PosInf => false
  | NegInf => true
  | NaN => false
  end.

(** [df[col].iloc[0]] on a one-row frame. *)
Definition iloc0 (df : gmap string value) (col : string) : exc value :=
  match df !! col with
  | Some v => Return v
  | None => Raise (KeyError col)
  end.

(** [v.lower()], [v * w], [a / b] and [v > k] on cells. *)
Definition lower_char (c : ascii) : ascii :=
  let n := N_of_ascii c in
  if ((65 <=? n) && (n <=? 90) ||
      (192 <=? n) && (n <=? 222) && negb (n =? 215))%N
  then ascii_of_N (n + 32)
  else c.

Fixpoint lower (s : string) : string :=
  match s with
  | EmptyString => EmptyString
  | String c s' => String (lower_char c) (lower s')
  end.

Definition lower_method (v : value) : exc string :=
  match v with
  | Str s => Return (lower s)
  | Num _ => Raise AttributeError
  end.

Definition mul_cell (v : value) (w : Q) : exc Q :=
  match v with
  | Num q => Return (q * w)%Q
  | Str _ => Raise TypeError
  end.

Definition div_cell (a b : value) : exc float64 :=
  match a, b with
  | Num x, Num y => Return (truediv x y)
  | _, _ => Raise TypeError
  end.

Definition gt_cell (v : value) (k : Q) : exc bool :=
  match v with
  | Num q => Return (Qltb k q)
  | Str _ => Raise TypeError
  end.

(** [sub in s] on strings: [sub] starts at some position of [s]. *)
Fixpoint startswith (s sub : string) {struct sub} : bool :=
  match sub, s with
  | EmptyString, _ => true
  | String _ _, EmptyString => false
  | String a sub', String b s' => Ascii.eqb a b && startswith s' sub'
  end.

Fixpoint str_in (sub s : string) : bool :=
  startswith s sub ||
  match s with
  | EmptyString => false
  | String _ s' => str_in sub s'
  end.

(** [d[key]] on a dict kept as an association list. *)
Fixpoint getitem {A} (d : list (string * A)) (key : string) : exc A :=
  match d with
  | [] => Raise (KeyError key)
  | (k, v) :: d' => if String.eqb k key then Return v else getitem d' key
  end.

(** [sum(gen)]: start from 0 and add the items from left to right; an item
    that raises ends the sum with its exception. *)
Definition sum_loop (acc : exc Q) (gen : list (exc Q)) : exc Q :=
  fold_left (λ acc item, a ← acc; x ← item; Return (a + x)%Q) gen acc.

Definition sum (gen : list (exc Q)) : exc Q := sum_loop (Return 0%Q) gen.

(** [round(x, ndigits)] in exact arithmetic: scale, round half to even, scale
    back. *)
Definition rint (x : Q) : Z :=
  let f := Qfloor x in
  match (x - inject_Z f ?= 1 # 2)%Q with
  | Lt => f
  | Gt => (f + 1)%Z
  | Eq => if Z.even f then f else (f + 1)%Z
  end.

Definition round (x : Q) (ndigits : nat) : Q :=
  let scale := inject_Z (10 ^ Z.of_nat ndigits) in
  (inject_Z (rint (x * scale)) / scale)%Q.

End Py.

Import Py.

(** ** climate_risk.py *)

Module ClimateRiskScreeningTool.

Local Open Scope string_scope.
Local Open Scope list_scope.

(** [self.esg_exclusion_list] *)
Definition esg_exclusion_list : list (string * list string) :=
  [ ("fossil_fuels",
     ["coal_mining"; "oil_gas_extraction"; "fossil_power_generation"]);
    ("controversial_weapons",
     ["cluster_munitions"; "landmines"; "nuclear_weapons"]);
    ("ethical_concerns",
     ["tobacco"; "gambling"; "adult_entertainment"]);
    ("environmental_violations",
     ["deforestation"; "high_emission_operations"]) ].

(** [self.climate_risk_factors] *)
Definition climate_risk_factors : list (string * list (string * Q)) :=
  [ ("physical_risk",
     [ ("flood_risk", 0.25%Q);
       ("heat_stress", 0.20%Q);
       ("sea_level_rise", 0.15%Q);
       ("wildfire_risk", 0.15%Q) ]);
    ("transition_risk",
     [ ("carbon_price_exposure", 0.25%Q);
       ("regulatory_compliance", 0.20%Q);
       ("technology_disruption", 0.15%Q) ]) ].

Definition required_columns : list string :=
  [ "company_name"; "industry"; "location"; "revenue";
    "carbon_footprint"; "physical_risk_score"; "transition_risk_score" ].

(** [load_company_data]: the frame of the single record, or [ValueError]
    (logged and re-raised) when a required column is missing. *)
Definition load_company_data (company_data : gmap string value)
  : exc (gmap string value) :=
  let df := company_data in
  if forallb (λ col, bool_decide (is_Some (df !! col))) required_columns
  then Return df
  else Raise (ValueError "Missing required columns in company data").

Definition screen_esg_exclusions (company_data : gmap string value)
  : exc (bool * list string) :=
  cell ← iloc0 company_data "industry";
  company_industry ← lower_method cell;
  let violations :=
    fold_left
      (λ violations '(category, industries),
         if existsb (λ industry, str_in industry company_industry) industries
         then violations ++ [category]
         else violations)
      esg_exclusion_list [] in
  Return (Nat.eqb (length violations) 0, violations).

(** The generator [cell(factor_score) * weight for factor, weight in items]. *)
Definition weighted_terms (company_data : gmap string value)
    (items : list (string * Q)) : list (exc Q) :=
  map (λ '(factor, weight),
         cell ← iloc0 company_data (factor +:+ "_score");
         mul_cell cell weight)
      items.

(** The body of the [try] block of [calculate_climate_risk_score]. *)
Definition calculate_body (company_data : gmap string value) : exc Q :=
  physical_items ← getitem climate_risk_factors "physical_risk";
  physical_score ← sum (weighted_terms company_data physical_items);
  transition_items ← getitem climate_risk_factors "transition_risk";
  transition_score ← sum (weighted_terms company_data transition_items);
  Return (0.6 * physical_score + 0.4 * transition_score)%Q.

Definition calculate_climate_risk_score (company_data : gmap string value)
  : exc Q :=
  try_except (calculate_body company_data) (λ e, Return 0.0%Q).

Definition identify_esg_risks (company_data : gmap string value)
  : exc (list string) :=
  let risks := [] in
  carbon_footprint ← iloc0 company_data "carbon_footprint";
  revenue ← iloc0 company_data "revenue";
  intensity ← div_cell carbon_footprint revenue;
  let risks :=
    if float64_gt intensity 100 then risks ++ ["High carbon intensity"] else risks in
  physical ← iloc0 company_data "physical_risk_score";
  high_physical ← gt_cell physical 7;
  let risks :=
    if (high_physical : bool) then risks ++ ["High physical climate risk"]
    else risks in
  transition ← iloc0 company_data "transition_risk_score";
  high_transition ← gt_cell transition 6;
  let risks :=
    if (high_transition : bool) then risks ++ ["High transition risk"] else risks in
  Return risks.

Definition assess_opportunities (company_data : gmap string value)
  : exc (list string) :=
  let opportunities := [] in
  cell ← iloc0 company_data "industry";
  industry ← lower_method cell;
  let opportunities :=
    if str_in "renewable" industry
    then opportunities ++ ["Renewable energy market growth"]
    else opportunities in
  carbon_footprint ← iloc0 company_data "carbon_footprint";
  revenue ← iloc0 company_data "revenue";
  intensity ← div_cell carbon_footprint revenue;
  let opportunities :=
    if float64_lt intensity 50
    then opportunities ++ ["Low-carbon competitive advantage"]
    else opportunities in
  cell ← iloc0 company_data "industry";
  industry ← lower_method cell;
  let opportunities :=
    if str_in "green" industry
    then opportunities ++ ["Green technology innovation"]
    else opportunities in
  Return opportunities.

Definition _generate_recommendation (esg_compliant : bool)
    (climate_risk_score : Q) : string :=
  if negb esg_compliant then
    "Do not proceed - ESG exclusion list violations detected"
  else if Qltb 8 climate_risk_score then
    "High risk - requires detailed due diligence"
  else if Qltb 5 climate_risk_score then
    "Moderate risk - proceed with caution"
  else
    "Low risk - suitable for investment consideration".

(** The report dictionary. *)
Record report : Type := Report {
  company_name : value;
  esg_compliant : bool;
  esg_violations : list string;
  climate_risk_score : Q;
  esg_risks : list string;
  climate_opportunities : list string;
  recommendation : string
}.

(** [generate_report]: [Some] report, or [None] for the empty dict [{}]
    returned by the [except] branch. *)
Definition generate_report (company_data : gmap string value)
  : option report :=
  let body :=
    df ← load_company_data company_data;
    '(esg_compliant, esg_violations) ← screen_esg_exclusions df;
    climate_risk_score ← calculate_climate_risk_score df;
    esg_risks ← identify_esg_risks df;
    opportunities ← assess_opportunities df;
    name ← iloc0 df "company_name";
    Return (Report name esg_compliant esg_violations
              (round climate_risk_score 2) esg_risks opportunities
              (_generate_recommendation esg_compliant climate_risk_score)) in
  match body with
  | Return r => Some r
  | Raise _ => None
  end.

(** The record built from the defaults of the input form. *)
Definition form_defaults : gmap string value :=
  list_to_map
    [ ("company_name", Str "GreenTech Solutions");
      ("industry", Str "Renewable Energy");
      ("location", Str "California");
      ("revenue", Num 100000000);
      ("carbon_footprint", Num 2000000);
      ("physical_risk_score", Num 4.5);
      ("transition_risk_score", Num 3.2);
      ("flood_risk_score", Num 5.0);
      ("heat_stress_score", Num 4.0);
      ("sea_level_rise_score", Num 3.5);
      ("wildfire_risk_score", Num 5.0);
      ("carbon_price_exposure_score", Num 3.0);
      ("regulatory_compliance_score", Num 3.5);
      ("technology_disruption_score", Num 3.0) ].

End ClimateRiskScreeningTool.

(** ** risk_score_app.py *)

Module LoanApp.

Local Open Scope string_scope.

Inductive decision : Type := Approved | Rejected.

(** "Step 2: Decision Logic", from the two assignments of the defaults to
    the end of the [if]/[elif]. *)
Definition decide (risk_score : Q) (loan_amount : Z) : decision * string :=
  let decision := Rejected in
  let reason := "High risk" in
  if Qleb 700 risk_score then
    (Approved, "Low risk")
  else if Qleb 500 risk_score && Qltb risk_score 700
          && (loan_amount <=? 50000)%Z then
    (Approved, "Medium risk (limited amount)")
  else
    (decision, reason).

(** [risk_data.get("risk_score", 0)] followed by the decision logic; a score
    that is not a number fails the first comparison. *)
Definition step2 (risk_data : gmap string value) (loan_amount : Z)
  : exc (decision * string) :=
  match default (Num 0) (risk_data !! "risk_score") with
  | Num risk_score => Return (decide risk_score loan_amount)
  | Str _ => Raise TypeError
  end.

End LoanApp.

Import ClimateRiskScreeningTool.

Import LoanApp.

(** ** climate_risk.py, the Streamlit page

    The widgets and the page are the inputs and the outputs of one run of
    the script: the values of the form are a record, the page is the list of
    the elements written to it.  An element keeps its text where the source
    builds it from strings alone; the two lines that format a cell or a
    number keep the value itself. *)

Module ClimatePage.

Local Open Scope string_scope.
Local Open Scope list_scope.

(** The values returned by the widgets of ["company_form"]. *)
Record form : Type := Form {
  company_name : string;
  industry : string;
  location : string;
  revenue : Q;
  carbon_footprint : Q;
  physical_risk_score : Q;
  transition_risk_score : Q;
  flood_risk_score : Q;
  heat_stress_score : Q;
  sea_level_rise_score : Q;
  wildfire_risk_score : Q;
  carbon_price_exposure_score : Q;
  regulatory_compliance_score : Q;
  technology_disruption_score : Q
}.



(** The dict [company_data] built on submission. *)
Definition company_data (f : form) : gmap string value :=
  list_to_map
    [ ("company_name", Str (company_name f));
      ("industry", Str (industry f));
      ("location", Str (location f));
      ("revenue", Num (revenue f));
      ("carbon_footprint", Num (carbon_footprint f));
      ("physical_risk_score", Num (physical_risk_score f));
      ("transition_risk_score", Num (transition_risk_score f));
      ("flood_risk_score", Num (flood_risk_score f));
      ("heat_stress_score", Num (heat_stress_score f));
      ("sea_level_rise_score", Num (sea_level_rise_score f));
      ("wildfire_risk_score", Num (wildfire_risk_score f));
      ("carbon_price_exposure_score", Num (carbon_price_exposure_score f));
      ("regulatory_compliance_score", Num (regulatory_compliance_score f));
      ("technology_disruption_score", Num (technology_disruption_score f)) ].

(** [sep.join(items)] *)
Fixpoint join (sep : string) (items : list string) : string :=
  match items with
  | [] => ""
  | [item] => item
  | item :: rest => item +:+ sep +:+ join sep rest
  end.

(** [', '.join(items) if items else 'None'] *)
Definition join_or_none (items : list string) : string :=
  match items with
  | [] => "None"
  | _ :: _ => join ", " items
  end.

Inductive element : Type :=
  | Subheader (text : string)
  | Markdown (text : string)
  | MarkdownCompanyName (name : value)
  | MarkdownScore (score : Q)
  | DownloadButton (data : ClimateRiskScreeningTool.report)
  | Error (text : string).

(** The display of the report.  On the empty dict the first subscript,
    [report['company_name']], raises [KeyError] after the subheader is
    written, and the handler writes the error. *)
Definition display (report : option ClimateRiskScreeningTool.report)
  : list element :=
  Subheader "Climate Risk Screening Report" ::
  match report with
  | None => [Error "Error generating report: 'company_name'"]
  | Some report =>
      [ MarkdownCompanyName (ClimateRiskScreeningTool.company_name report);
        Markdown ("**ESG Compliant**: " +:+
                  (if esg_compliant report then "Yes" else "No"));
        Markdown ("**ESG Violations**: " +:+
                  join_or_none (esg_violations report));
        MarkdownScore (climate_risk_score report);
        Markdown ("**ESG Risks**: " +:+ join_or_none (esg_risks report));
        Markdown ("**Climate Opportunities**: " +:+
                  join_or_none (climate_opportunities report));
        Markdown ("**Recommendation**: " +:+ recommendation report);
        DownloadButton report ]
  end.

(** One run of the script: nothing but the form unless it was submitted. *)
Definition run (submitted : bool) (f : form) : list element :=
  if submitted then display (generate_report (company_data f)) else [].

End ClimatePage.

(** ** risk_score_app.py, the Streamlit page

    The answer of the scoring service and the outcome of the Slack request
    are inputs of a run; what the run shows and sends is its list of
    effects. *)

Module LoanPage.

Local Open Scope string_scope.
Local Open Scope list_scope.

(** What [response.json()] returns: a JSON object or another JSON value. *)
Inductive json : Type :=
  | JObject (fields : gmap string value)
  | JOther.

Inductive effect : Type :=
  | UserIdError
  | ApiError
  | Results (risk_score : value) (decision : decision) (reason : string)
  | SlackPost (url user_id : string) (risk_score : value) (loan_amount : Z)
  | AuditLog (user_id : string) (risk_score : value) (loan_amount : Z)
      (decision : decision).

(** The script variables that the audit log reads, bound or not. *)
Record variables : Type := Variables {
  risk_score : option value;
  decision : option LoanApp.decision
}.

(** The body of the [try]: the effects, the variables bound on the way, and
    whether an exception reached the [except].  [response] is [None] when
    [requests.get], [raise_for_status] or [json] raised; [post_raises] tells
    whether [requests.post] does. *)
Definition try_body (user_id : string) (loan_amount : Z)
    (SLACK_WEBHOOK_URL : option string) (response : option json)
    (post_raises : bool) : list effect * variables * bool :=
  match response with
  | None => ([], Variables None None, true)
  | Some JOther => ([], Variables None None, true)
  | Some (JObject risk_data) =>
      let risk_score := default (Num 0) (risk_data !! "risk_score") in
      match step2 risk_data loan_amount with
      | Raise _ => ([], Variables (Some risk_score) (Some Rejected), true)
      | Return (decision, reason) =>
          let bound := Variables (Some risk_score) (Some decision) in
          let shown := [Results risk_score decision reason] in
          match decision, SLACK_WEBHOOK_URL with
          | Rejected, Some url =>
              if String.eqb url "" then (shown, bound, false)
              else (shown ++ [SlackPost url user_id risk_score loan_amount],
                    bound, post_raises)
          | _, _ => (shown, bound, false)
          end
      end
  end.

(** One run of the script. *)
Definition run (submitted : bool) (user_id : string) (loan_amount : Z)
    (SLACK_WEBHOOK_URL : option string) (response : option json)
    (post_raises : bool) : list effect :=
  if submitted then
    let '(effects, bound) :=
      if String.eqb user_id "" then ([UserIdError], Variables None None)
      else
        let '(effects, bound, raised) :=
          try_body user_id loan_amount SLACK_WEBHOOK_URL response
            post_raises in
        (effects ++ (if raised then [ApiError] else []), bound) in
    effects ++
    match risk_score bound, decision bound with
    | Some risk_score, Some decision =>
        [AuditLog user_id risk_score loan_amount decision]
    | _, _ => []
    end
  else [].

End LoanPage.

(** ** climate_risk.py in binary64

    The embedding above computes with exact rationals.  Where a statement
    depends on the value that the arithmetic yields (the composite score
    itself, a quotient that meets a threshold, a division by zero), the
    second embedding below is the one to read: its cells hold text or
    binary64 numbers, which is what pandas holds for the floats of the form,
    and every operation is the IEEE 754 one that numpy performs, in the
    order of the source.  No operation on two such numbers raises.  The
    builtin [round] is an argument of [generate_report]. *)

Module B64.

Local Open Scope string_scope.
Local Open Scope list_scope.
#[local] Set Warnings "-inexact-float".

Inductive cell : Type :=
  | Text (s : string)
  | Number (x : float).

(** [df[col].iloc[0]] on a one-row frame. *)
Definition iloc0 (df : gmap string cell) (col : string) : exc cell :=
  match df !! col with
  | Some v => Return v
  | None => Raise (KeyError col)
  end.

(** [v.lower()], [v * w], [a / b], [v > k] and [v < k] on cells. *)
Definition lower_method (v : cell) : exc string :=
  match v with
  | Text s => Return (lower s)
  | Number _ => Raise AttributeError
  end.

Definition mul_cell (v : cell) (w : float) : exc float :=
  match v with
  | Number x => Return (x * w)%float
  | Text _ => Raise TypeError
  end.

Definition div_cell (a b : cell) : exc float :=
  match a, b with
  | Number x, Number y => Return (x / y)%float
  | _, _ => Raise TypeError
  end.

Definition gt_cell (v : cell) (k : float) : exc bool :=
  match v with
  | Number x => Return (k <? x)%float
  | Text _ => Raise TypeError
  end.

(** [sum(gen)]: start from 0 and add the items from left to right. *)
Definition sum_loop (acc : exc float) (gen : list (exc float)) : exc float :=
  fold_left (λ acc item, a ← acc; x ← item; Return (a + x)%float) gen acc.

Definition sum (gen : list (exc float)) : exc float :=
  sum_loop (Return 0%float) gen.

(** [self.climate_risk_factors] *)
Definition climate_risk_factors : list (string * list (string * float)) :=
  [ ("physical_risk",
     [ ("flood_risk", 0.25%float);
       ("heat_stress", 0.20%float);
       ("sea_level_rise", 0.15%float);
       ("wildfire_risk", 0.15%float) ]);
    ("transition_risk",
     [ ("carbon_price_exposure", 0.25%float);
       ("regulatory_compliance", 0.20%float);
       ("technology_disruption", 0.15%float) ]) ].

Definition load_company_data (company_data : gmap string cell)
  : exc (gmap string cell) :=
  let df := company_data in
  if forallb (λ col, bool_decide (is_Some (df !! col))) required_columns
  then Return df
  else Raise (ValueError "Missing required columns in company data").

Definition screen_esg_exclusions (company_data : gmap string cell)
  : exc (bool * list string) :=
  cell ← iloc0 company_data "industry";
  company_industry ← lower_method cell;
  let violations :=
    fold_left
      (λ violations '(category, industries),
         if existsb (λ industry, str_in industry company_industry) industries
         then violations ++ [category]
         else violations)
      esg_exclusion_list [] in
  Return (Nat.eqb (length violations) 0, violations).

Definition weighted_terms (company_data : gmap string cell)
    (items : list (string * float)) : list (exc float) :=
  map (λ '(factor, weight),
         cell ← iloc0 company_data (factor +:+ "_score");
         mul_cell cell weight)
      items.

Definition calculate_body (company_data : gmap string cell) : exc float :=
  physical_items ← getitem climate_risk_factors "physical_risk";
  physical_score ← sum (weighted_terms company_data physical_items);
  transition_items ← getitem climate_risk_factors "transition_risk";
  transition_score ← sum (weighted_terms company_data transition_items);
  Return (0.6 * physical_score + 0.4 * transition_score)%float.

Definition calculate_climate_risk_score (company_data : gmap string cell)
  : exc float :=
  try_except (calculate_body company_data) (λ e, Return 0.0%float).

Definition identify_esg_risks (company_data : gmap string cell)
  : exc (list string) :=
  let risks := [] in
  carbon_footprint ← iloc0 company_data "carbon_footprint";
  revenue ← iloc0 company_data "revenue";
  intensity ← div_cell carbon_footprint revenue;
  let risks :=
    if (100 <? intensity)%float then risks ++ ["High carbon intensity"]
    else risks in
  physical ← iloc0 company_data "physical_risk_score";
  high_physical ← gt_cell physical 7;
  let risks :=
    if (high_physical : bool) then risks ++ ["High physical climate risk"]
    else risks in
  transition ← iloc0 company_data "transition_risk_score";
  high_transition ← gt_cell transition 6;
  let risks :=
    if (high_transition : bool) then risks ++ ["High transition risk"]
    else risks in
  Return risks.

Definition assess_opportunities (company_data : gmap string cell)
  : exc (list string) :=
  let opportunities := [] in
  cell ← iloc0 company_data "industry";
  industry ← lower_method cell;
  let opportunities :=
    if str_in "renewable" industry
    then opportunities ++ ["Renewable energy market growth"]
    else opportunities in
  carbon_footprint ← iloc0 company_data "carbon_footprint";
  revenue ← iloc0 company_data "revenue";
  intensity ← div_cell carbon_footprint revenue;
  let opportunities :=
    if (intensity <? 50)%float
    then opportunities ++ ["Low-carbon competitive advantage"]
    else opportunities in
  cell ← iloc0 company_data "industry";
  industry ← lower_method cell;
  let opportunities :=
    if str_in "green" industry
    then opportunities ++ ["Green technology innovation"]
    else opportunities in
  Return opportunities.

Definition _generate_recommendation (esg_compliant : bool)
    (climate_risk_score : float) : string :=
  if negb esg_compliant then
    "Do not proceed - ESG exclusion list violations detected"
  else if (8 <? climate_risk_score)%float then
    "High risk - requires detailed due diligence"
  else if (5 <? climate_risk_score)%float then
    "Moderate risk - proceed with caution"
  else
    "Low risk - suitable for investment consideration".

Record report : Type := Report {
  company_name : cell;
  esg_compliant : bool;
  esg_violations : list string;
  climate_risk_score : float;
  esg_risks : list string;
  climate_opportunities : list string;
  recommendation : string
}.

(** [generate_report], with the builtin [round] as its first argument:
    [Some] report, or [None] for the empty dict of the [except] branch. *)
Definition generate_report (round : float → Z → float)
    (company_data : gmap string cell) : option report :=
  let body :=
    df ← load_company_data company_data;
    '(esg_compliant, esg_violations) ← screen_esg_exclusions df;
    climate_risk_score ← calculate_climate_risk_score df;
    esg_risks ← identify_esg_risks df;
    opportunities ← assess_opportunities df;
    name ← iloc0 df "company_name";
    Return (Report name esg_compliant esg_violations
              (round climate_risk_score 2%Z) esg_risks opportunities
              (_generate_recommendation esg_compliant climate_risk_score)) in
  match body with
  | Return r => Some r
  | Raise _ => None
  end.

(** The rounding of a numpy scalar to [ndigits] decimals, for
    0 <= ndigits <= 15: multiply by the power of ten, round to the nearest
    integer with ties to even, divide. *)
Definition rint (x : float) : float :=
  if (abs x <? 0x1p52)%float then
    let r := ((abs x + 0x1p52) - 0x1p52)%float in
    if get_sign x then (- r)%float else r
  else x.

Definition numpy_round (x : float) (ndigits : Z) : float :=
  let scale := of_uint63 (Uint63.of_Z (10 ^ ndigits)) in
  (rint (x * scale) / scale)%float.

(** The record of the form defaults with the given industry, revenue, carbon
    footprint, the two risk scores and the seven sub-factor scores. *)
Definition company_data (industry : string)
    (revenue carbon_footprint physical transition : float)
    (flood heat sea wildfire carbon regulatory technology : float)
  : gmap string cell :=
  list_to_map
    [ ("company_name", Text "GreenTech Solutions");
      ("industry", Text industry);
      ("location", Text "California");
      ("revenue", Number revenue);
      ("carbon_footprint", Number carbon_footprint);
      ("physical_risk_score", Number physical);
      ("transition_risk_score", Number transition);
      ("flood_risk_score", Number flood);
      ("heat_stress_score", Number heat);
      ("sea_level_rise_score", Number sea);
      ("wildfire_risk_score", Number wildfire);
      ("carbon_price_exposure_score", Number carbon);
      ("regulatory_compliance_score", Number regulatory);
      ("technology_disruption_score", Number technology) ].

End B64.

(** ** Vocabulary of the statements *)

Section Vocabulary.

Local Open Scope string_scope.
Local Open Scope list_scope.
Local Open Scope Q_scope.

(** Some keyword of [industries] occurs in [text]. *)
Definition mentions (text : string) (industries : list string) : bool :=
  existsb (λ industry, str_in industry text) industries.

(** The labels of the categories that [text] mentions, in list order. *)
Definition violated (text : string) : list string :=
  (filter (λ entry, mentions text entry.2 = true) esg_exclusion_list).*1.

(** The one-element list of a label whose rule fired. *)
Definition label_if (b : bool) (label : string) : list string :=
  if b then [label] else [].

(** The sum of the weights of one risk dimension. *)
Definition weight_total (items : list (string * Q)) : Q :=
  foldr (λ item acc, item.2 + acc) 0 items.

(** The two entries of [climate_risk_factors]. *)
Definition physical_items : list (string * Q) :=
  [ ("flood_risk", 0.25); ("heat_stress", 0.20);
    ("sea_level_rise", 0.15); ("wildfire_risk", 0.15) ].

Definition transition_items : list (string * Q) :=
  [ ("carbon_price_exposure", 0.25); ("regulatory_compliance", 0.20);
    ("technology_disruption", 0.15) ].

(** The value computed by the [try] block of the scorer, as its two sums
    accumulate it from 0. *)
Definition accumulated_score
    (flood heat sea wildfire carbon regulatory technology : Q) : Q :=
  0.6 * (0 + flood * 0.25 + heat * 0.20 + sea * 0.15 + wildfire * 0.15) +
  0.4 * (0 + carbon * 0.25 + regulatory * 0.20 + technology * 0.15).

(** The form defaults with the seven weighted sub-factor scores replaced. *)
Definition with_scores
    (flood heat sea wildfire carbon regulatory technology : Q)
  : gmap string value :=
  <["flood_risk_score" := Num flood]>
  (<["heat_stress_score" := Num heat]>
  (<["sea_level_rise_score" := Num sea]>
  (<["wildfire_risk_score" := Num wildfire]>
  (<["carbon_price_exposure_score" := Num carbon]>
  (<["regulatory_compliance_score" := Num regulatory]>
  (<["technology_disruption_score" := Num technology]> form_defaults)))))).

(** The form defaults without the flood-risk sub-factor. *)
Definition without_flood_risk : gmap string value :=
  delete "flood_risk_score" form_defaults.

(** The form defaults with a revenue of zero. *)
Definition zero_revenue : gmap string value :=
  <["revenue" := Num 0]> form_defaults.

End Vocabulary.

Section ColumnVocabulary.

Local Open Scope string_scope.
Local Open Scope list_scope.

(** The columns read by the scorer and by the risk rules. *)
Definition score_columns : list string :=
  [ "flood_risk_score"; "heat_stress_score"; "sea_level_rise_score";
    "wildfire_risk_score"; "carbon_price_exposure_score";
    "regulatory_compliance_score"; "technology_disruption_score" ].

Definition risk_columns : list string :=
  [ "carbon_footprint"; "revenue"; "physical_risk_score";
    "transition_risk_score" ].

(** A run of the loan page for a rejected applicant, with a webhook. *)
Definition rejected_run : list LoanPage.effect :=
  LoanPage.run true "CUST-12345" 60000 (Some "https://hooks.example/T0")
    (Some (LoanPage.JObject {[ "risk_score" := Num 550 ]})) false.

(** A run of the loan page on an answer whose score is text. *)
Definition text_score_run : list LoanPage.effect :=
  LoanPage.run true "CUST-12345" 60000 (Some "https://hooks.example/T0")
    (Some (LoanPage.JObject {[ "risk_score" := Str "n/a" ]})) false.

End ColumnVocabulary.

Section Binary64Vocabulary.

Local Open Scope string_scope.
Local Open Scope list_scope.
#[local] Set Warnings "-inexact-float".

(** The two entries of [B64.climate_risk_factors]. *)
Definition physical_weights : list (string * float) :=
  [ ("flood_risk", 0.25%float); ("heat_stress", 0.20%float);
    ("sea_level_rise", 0.15%float); ("wildfire_risk", 0.15%float) ].

Definition transition_weights : list (string * float) :=
  [ ("carbon_price_exposure", 0.25%float);
    ("regulatory_compliance", 0.20%float);
    ("technology_disruption", 0.15%float) ].

(** The score of one dimension for the sub-factor values [x]: the binary64
    sum of value times weight over the declared sub-factors, accumulated
    from 0 in the order of the table. *)
Definition weighted_sum (x : string → float) (items : list (string * float))
  : float :=
  fold_left (λ acc item, (acc + x item.1 * item.2)%float) items 0%float.

(** The record [d] holds the number [x factor] in the score column of every
    sub-factor of the weight table. *)
Definition holds_sub_factors (d : gmap string B64.cell) (x : string → float)
  : Prop :=
  ∀ dimension items factor weight,
    (dimension, items) ∈ B64.climate_risk_factors →
    (factor, weight) ∈ items →
    d !! (factor +:+ "_score") = Some (B64.Number (x factor)).

(** Seven sub-factor values, by sub-factor name. *)
Definition sub_factors
    (flood heat sea wildfire carbon regulatory technology : float)
    (factor : string) : float :=
  if String.eqb factor "flood_risk" then flood
  else if String.eqb factor "heat_stress" then heat
  else if String.eqb factor "sea_level_rise" then sea
  else if String.eqb factor "wildfire_risk" then wildfire
  else if String.eqb factor "carbon_price_exposure" then carbon
  else if String.eqb factor "regulatory_compliance" then regulatory
  else technology.

(** The columns that [B64.generate_report] needs, with the kind of cell that
    its callees accept in each. *)
Definition reportable (d : gmap string B64.cell) : Prop :=
  is_Some (d !! "company_name") ∧
  (∃ s, d !! "industry" = Some (B64.Text s)) ∧
  is_Some (d !! "location") ∧
  (∃ x, d !! "revenue" = Some (B64.Number x)) ∧
  (∃ x, d !! "carbon_footprint" = Some (B64.Number x)) ∧
  (∃ x, d !! "physical_risk_score" = Some (B64.Number x)) ∧
  (∃ x, d !! "transition_risk_score" = Some (B64.Number x)).

(** A record whose score, 5.0000000000000009, lies just above a threshold. *)
Definition just_above_five : gmap string B64.cell :=
  B64.company_data "Renewable Energy" 100000000 2000000 4.5 3.2
    9.9 4.4 8.0 9.3 7.6 2.9 7.3.

(** A record whose score is 3.6450000000000005. *)
Definition two_decimals : gmap string B64.cell :=
  B64.company_data "Renewable Energy" 100000000 2000000 4.5 3.2
    6.9 9.3 0.5 6.7 1.1 3.2 8.0.

(** A record with upper-case industry words, a quotient of exactly 100 (in
    binary64, 30.0 / 0.3 is 100.0) and a transition risk of exactly 6. *)
Definition on_the_thresholds : gmap string B64.cell :=
  B64.company_data "RENEWABLE Energy, Green Tech" 0.3 30.0 7.5 6.0
    5.0 4.0 3.5 5.0 3.0 3.5 3.0.

(** The form defaults with a revenue of 0.0, and of -0.0. *)
Definition revenue_zero : gmap string B64.cell :=
  B64.company_data "Renewable Energy" 0 2000000 4.5 3.2
    5.0 4.0 3.5 5.0 3.0 3.5 3.0.

Definition revenue_negative_zero : gmap string B64.cell :=
  B64.company_data "Renewable Energy" (-0) 2000000 4.5 3.2
    5.0 4.0 3.5 5.0 3.0 3.5 3.0.

End Binary64Vocabulary.

(** * Properties *)

(** ** Comparisons on numbers *)

Section Comparisons.

Local Open Scope Q_scope.

Lemma Qltb_lt (x y : Q) : Qltb x y = true ↔ x < y.
Proof.
  unfold Qltb. rewrite negb_true_iff, <- not_true_iff_false, Qle_bool_iff.
  split; [apply Qnot_le_lt | apply Qlt_not_le].
Qed.

Lemma Qltb_ge (x y : Q) : Qltb x y = false ↔ y <= x.
Proof. unfold Qltb. rewrite negb_false_iff. apply Qle_bool_iff. Qed.

Lemma Qleb_le (x y : Q) : Qleb x y = true ↔ x <= y.
Proof. apply Qle_bool_iff. Qed.

Lemma Qleb_gt (x y : Q) : Qleb x y = false ↔ y < x.
Proof.
  unfold Qleb. rewrite <- not_true_iff_false, Qle_bool_iff.
  split; [apply Qnot_le_lt | apply Qlt_not_le].
Qed.

End Comparisons.

(** ** The recommendation and the loan decision *)

Section Classifiers.

Local Open Scope Q_scope.
Local Open Scope string_scope.

(** C1: [_generate_recommendation] tries its rules from top to bottom and the
    first match wins, with strict comparisons: a non-compliant company gets
    "Do not proceed"; a compliant one gets "High risk" when the score is
    above 8, else "Moderate risk" when it is above 5, else "Low risk".  A
    score of exactly 8 is "Moderate", a score of exactly 5 is "Low". *)
Theorem generate_recommendation_rules (esg_compliant : bool) (score : Q) :
  let r := _generate_recommendation esg_compliant score in
  (esg_compliant = false →
     r = "Do not proceed - ESG exclusion list violations detected") ∧
  (esg_compliant = true → 8 < score →
     r = "High risk - requires detailed due diligence") ∧
  (esg_compliant = true → ¬ 8 < score → 5 < score →
     r = "Moderate risk - proceed with caution") ∧
  (esg_compliant = true → ¬ 8 < score → ¬ 5 < score →
     r = "Low risk - suitable for investment consideration") ∧
  _generate_recommendation true 8.0 = "Moderate risk - proceed with caution" ∧
  _generate_recommendation true 8.0001 =
    "High risk - requires detailed due diligence" ∧
  _generate_recommendation true 5.0 =
    "Low risk - suitable for investment consideration".
Proof.
  cbv zeta. unfold _generate_recommendation.
  destruct (Qltb 8 score) eqn:H8; destruct (Qltb 5 score) eqn:H5;
    try (apply Qltb_lt in H8); try (apply Qltb_lt in H5);
    try (apply Qltb_ge in H8); try (apply Qltb_ge in H5);
    destruct esg_compliant; simpl;
    repeat split; intros; try reflexivity; try discriminate;
    exfalso; lra.
Qed.

(** C2: the loan decision approves with "Low risk" from a risk score of 700
    on, whatever the amount; approves with "Medium risk (limited amount)"
    for a score in [500, 700) and an amount of at most 50000; and rejects
    with "High risk" in every other case.  699 with 50000 is approved, 699
    with 50001 is rejected. *)
Theorem decide_rules (risk_score : Q) (loan_amount : Z) :
  (700 <= risk_score →
     decide risk_score loan_amount = (Approved, "Low risk")) ∧
  (500 <= risk_score → risk_score < 700 → (loan_amount ≤ 50000)%Z →
     decide risk_score loan_amount =
       (Approved, "Medium risk (limited amount)")) ∧
  (¬ 700 <= risk_score →
   ¬ (500 <= risk_score ∧ risk_score < 700 ∧ (loan_amount ≤ 50000)%Z) →
     decide risk_score loan_amount = (Rejected, "High risk")) ∧
  decide 699 50000 = (Approved, "Medium risk (limited amount)") ∧
  decide 699 50001 = (Rejected, "High risk").
Proof.
  unfold decide.
  destruct (Qleb 700 risk_score) eqn:H7;
    [apply Qleb_le in H7 | apply Qleb_gt in H7];
  (destruct (Qleb 500 risk_score) eqn:H5;
    [apply Qleb_le in H5 | apply Qleb_gt in H5]);
  (destruct (Qltb risk_score 700) eqn:H7';
    [apply Qltb_lt in H7' | apply Qltb_ge in H7']);
  (destruct (Z.leb_spec loan_amount 50000));
  simpl; repeat split; intros; try reflexivity;
  solve [ exfalso; lra | exfalso; lia | exfalso; tauto ].
Qed.

End Classifiers.

(** ** Text: lower-casing and substring search *)

Section Text.

Local Open Scope string_scope.

Lemma append_nil_l (s : string) : "" +:+ s = s.
Proof. reflexivity. Qed.

Lemma append_cons_l (c : ascii) (s t : string) :
  String c s +:+ t = String c (s +:+ t).
Proof. reflexivity. Qed.

Lemma lower_char_idemp (c : ascii) : lower_char (lower_char c) = lower_char c.
Proof. destruct c as [[] [] [] [] [] [] [] []]; reflexivity. Qed.

Lemma lower_idemp (s : string) : lower (lower s) = lower s.
Proof.
  induction s as [|c s IH]; simpl; [done|].
  by rewrite lower_char_idemp, IH.
Qed.

Lemma startswith_prefix (s sub : string) :
  startswith s sub = true ↔ ∃ post, s = sub +:+ post.
Proof.
  revert s. induction sub as [|a sub IH]; intros s; simpl.
  - split; [by exists s | done].
  - destruct s as [|b s].
    + split; [done | by intros [post H]].
    + rewrite andb_true_iff, Ascii.eqb_eq, IH. split.
      * intros [-> [post ->]]. by exists post.
      * intros [post H]. rewrite append_cons_l in H.
        injection H as -> ->. eauto.
Qed.

Lemma str_in_substring (sub s : string) :
  str_in sub s = true ↔ ∃ pre post, s = pre +:+ sub +:+ post.
Proof.
  induction s as [|c s IH]; simpl.
  - rewrite orb_false_r, startswith_prefix. split.
    + intros [post H]. by exists "", post.
    + intros [[|c pre] [post H]]; [by exists post | done].
  - rewrite orb_true_iff, startswith_prefix, IH. split.
    + intros [[post H] | [pre [post H]]].
      * by exists "", post.
      * exists (String c pre), post. by rewrite append_cons_l, H.
    + intros [[|c' pre] [post H]].
      * left. by exists post.
      * right. rewrite append_cons_l in H.
        injection H as -> ->. by exists pre, post.
Qed.

End Text.

(** ** Screening against the exclusion list *)

Section Screening.

Local Open Scope string_scope.
Local Open Scope list_scope.

Lemma violations_loop (P : list string → bool)
    (taxonomy : list (string * list string)) (acc : list string) :
  fold_left
    (λ violations '(category, industries),
       if P industries then violations ++ [category] else violations)
    taxonomy acc
  = acc ++ (filter (λ entry, P entry.2 = true) taxonomy).*1.
Proof.
  revert acc. induction taxonomy as [|[category industries] rest IH];
    intros acc; simpl.
  - by rewrite app_nil_r.
  - rewrite IH, filter_cons. simpl. destruct (P industries); simpl.
    + by rewrite <- app_assoc.
    + done.
Qed.

Lemma length_eqb_nil {A} `{EqDecision A} (l : list A) :
  Nat.eqb (length l) 0 = bool_decide (l = []).
Proof. by destruct l. Qed.

Lemma screen_industry (d : gmap string value) (s : string) :
  d !! "industry" = Some (Str s) →
  screen_esg_exclusions d
  = Return (bool_decide (violated (lower s) = []), violated (lower s)).
Proof.
  intros H. unfold screen_esg_exclusions, iloc0. rewrite H.
  cbn [mbind exc_bind lower_method].
  rewrite (violations_loop (mentions (lower s))), length_eqb_nil.
  reflexivity.
Qed.

Lemma violated_sublist (text : string) :
  violated text `sublist_of` esg_exclusion_list.*1.
Proof. unfold violated. apply fmap_sublist, sublist_filter. Qed.

Lemma violated_NoDup (text : string) : NoDup (violated text).
Proof.
  eapply sublist_NoDup; [|apply violated_sublist].
  apply (bool_decide_unpack _). by vm_compute.
Qed.

Lemma elem_of_violated (text category : string) :
  category ∈ violated text ↔
  ∃ industries keyword,
    (category, industries) ∈ esg_exclusion_list ∧ keyword ∈ industries ∧
    ∃ pre post, text = pre +:+ keyword +:+ post.
Proof.
  unfold violated, mentions. rewrite list_elem_of_fmap. split.
  - intros [[c industries] [-> [Hm Hin]%list_elem_of_filter]].
    simpl in *. apply existsb_exists in Hm as [keyword [Hk Hs]].
    exists industries, keyword. split_and!; [done | |].
    + by apply list_elem_of_In.
    + by apply str_in_substring.
  - intros (industries & keyword & Hin & Hk & Hs).
    exists (category, industries). split; [done|].
    apply list_elem_of_filter. split; [|done]. simpl.
    apply existsb_exists. exists keyword. split.
    + by apply list_elem_of_In.
    + by apply str_in_substring.
Qed.

(** C5: for every category text, the screening returns compliant = true
    exactly when the list of violations is empty; the violations are
    category labels without repetition, in the definition order of the
    exclusion list; the empty text gives (true, []).  A text that names
    tobacco before coal mining still lists fossil_fuels first. *)
Theorem screen_compliant_iff_no_violations (s : string)
    (d : gmap string value) :
  (∃ compliant violations,
     screen_esg_exclusions (<["industry" := Str s]> d)
       = Return (compliant, violations) ∧
     (compliant = true ↔ violations = []) ∧
     NoDup violations ∧
     violations `sublist_of`
       ["fossil_fuels"; "controversial_weapons"; "ethical_concerns";
        "environmental_violations"]) ∧
  esg_exclusion_list.*1 =
    ["fossil_fuels"; "controversial_weapons"; "ethical_concerns";
     "environmental_violations"] ∧
  screen_esg_exclusions (<["industry" := Str ""]> d) = Return (true, []) ∧
  screen_esg_exclusions (<["industry" := Str "Tobacco and coal_mining"]> d)
    = Return (false, ["fossil_fuels"; "ethical_concerns"]).
Proof.
  split_and!.
  - exists (bool_decide (violated (lower s) = [])), (violated (lower s)).
    split_and!.
    + apply screen_industry, lookup_insert_eq.
    + apply bool_decide_eq_true.
    + apply violated_NoDup.
    + apply (violated_sublist (lower s)).
  - reflexivity.
  - by rewrite (screen_industry _ "") by apply lookup_insert_eq.
  - by rewrite (screen_industry _ "Tobacco and coal_mining")
      by apply lookup_insert_eq.
Qed.

(** C6: the screening is a case-insensitive literal substring match: the
    text and its lower-cased form are screened alike, and a category is
    reported exactly when one of its keywords occurs inside the lower-cased
    text.  "OIL_GAS_EXTRACTION" and "oil_gas_extraction" both violate
    fossil_fuels. *)
Theorem screen_case_insensitive (s : string) (d : gmap string value) :
  screen_esg_exclusions (<["industry" := Str s]> d)
    = screen_esg_exclusions (<["industry" := Str (lower s)]> d) ∧
  (∃ compliant violations,
     screen_esg_exclusions (<["industry" := Str s]> d)
       = Return (compliant, violations) ∧
     ∀ category,
       category ∈ violations ↔
       ∃ industries keyword,
         (category, industries) ∈ esg_exclusion_list ∧
         keyword ∈ industries ∧
         ∃ pre post, lower s = pre +:+ keyword +:+ post) ∧
  screen_esg_exclusions (<["industry" := Str "OIL_GAS_EXTRACTION"]> d)
    = Return (false, ["fossil_fuels"]) ∧
  screen_esg_exclusions (<["industry" := Str "oil_gas_extraction"]> d)
    = Return (false, ["fossil_fuels"]).
Proof.
  split_and!.
  - rewrite (screen_industry _ s), (screen_industry _ (lower s))
      by apply lookup_insert_eq.
    by rewrite lower_idemp.
  - eexists _, _. split.
    + apply screen_industry, lookup_insert_eq.
    + intros category. apply elem_of_violated.
  - by rewrite (screen_industry _ "OIL_GAS_EXTRACTION")
      by apply lookup_insert_eq.
  - by rewrite (screen_industry _ "oil_gas_extraction")
      by apply lookup_insert_eq.
Qed.

End Screening.

(** ** Qualitative risk and opportunity rules *)

Section Rules.

Local Open Scope string_scope.
Local Open Scope list_scope.

Section Cells.

Variable d : gmap string value.
Variables c r p t : Q.
Variable s : string.
Hypothesis carbon_footprint_cell : d !! "carbon_footprint" = Some (Num c).
Hypothesis revenue_cell : d !! "revenue" = Some (Num r).
Hypothesis physical_cell : d !! "physical_risk_score" = Some (Num p).
Hypothesis transition_cell : d !! "transition_risk_score" = Some (Num t).
Hypothesis industry_cell : d !! "industry" = Some (Str s).

Lemma identify_esg_risks_cells :
  identify_esg_risks d =
  Return (label_if (float64_gt (truediv c r) 100) "High carbon intensity" ++
          label_if (Qltb 7 p) "High physical climate risk" ++
          label_if (Qltb 6 t) "High transition risk").
Proof using carbon_footprint_cell revenue_cell physical_cell transition_cell.
  unfold identify_esg_risks, iloc0.
  rewrite carbon_footprint_cell, revenue_cell, physical_cell, transition_cell.
  cbn [mbind exc_bind div_cell gt_cell].
  by destruct (float64_gt (truediv c r) 100), (Qltb 7 p), (Qltb 6 t).
Qed.

Lemma assess_opportunities_cells :
  assess_opportunities d =
  Return (label_if (str_in "renewable" (lower s))
            "Renewable energy market growth" ++
          label_if (float64_lt (truediv c r) 50) "Low-carbon competitive advantage" ++
          label_if (str_in "green" (lower s)) "Green technology innovation").
Proof using carbon_footprint_cell revenue_cell industry_cell.
  unfold assess_opportunities, iloc0.
  rewrite carbon_footprint_cell, revenue_cell, industry_cell.
  cbn [mbind exc_bind div_cell lower_method].
  by destruct (str_in "renewable" (lower s)), (float64_lt (truediv c r) 50),
    (str_in "green" (lower s)).
Qed.

End Cells.

Lemma label_if_three (b1 b2 b3 : bool) (l1 l2 l3 : string) :
  NoDup [l1; l2; l3] →
  let labels := label_if b1 l1 ++ label_if b2 l2 ++ label_if b3 l3 in
  labels `sublist_of` [l1; l2; l3] ∧
  (l1 ∈ labels ↔ b1 = true) ∧
  (l2 ∈ labels ↔ b2 = true) ∧
  (l3 ∈ labels ↔ b3 = true).
Proof.
  rewrite !NoDup_cons, !elem_of_cons, elem_of_nil.
  intros (H1 & H2 & _).
  destruct b1, b2, b3; simpl; split_and!;
    try (repeat first [ apply sublist_nil | apply sublist_skip
                      | apply sublist_cons ]);
    rewrite ?elem_of_cons, ?elem_of_nil; intuition congruence.
Qed.

Lemma three_risk_labels :
  NoDup ["High carbon intensity"; "High physical climate risk";
         "High transition risk"].
Proof. apply (bool_decide_unpack _). by vm_compute. Qed.

Lemma three_opportunity_labels :
  NoDup ["Renewable energy market growth"; "Low-carbon competitive advantage";
         "Green technology innovation"].
Proof. apply (bool_decide_unpack _). by vm_compute. Qed.

End Rules.

(** ** The weighted climate risk score *)

Section Scoring.

Local Open Scope string_scope.
Local Open Scope list_scope.
Local Open Scope Q_scope.

Lemma climate_risk_factors_items :
  climate_risk_factors =
  [ ("physical_risk", physical_items); ("transition_risk", transition_items) ].
Proof. reflexivity. Qed.

Lemma calculate_body_items (d : gmap string value) :
  calculate_body d =
  (physical_score ← sum (weighted_terms d physical_items);
   transition_score ← sum (weighted_terms d transition_items);
   Return (0.6 * physical_score + 0.4 * transition_score)).
Proof. reflexivity. Qed.

(** *** Failures inside the sum *)

Lemma sum_loop_raised (gen : list (exc Q)) (e : exn) :
  sum_loop (Raise e) gen = Raise e.
Proof. induction gen as [|item gen IH]; simpl; [done | apply IH]. Qed.

Lemma sum_loop_raises (gen : list (exc Q)) (acc : exc Q) :
  (∃ e, Raise e ∈ gen) → ∃ e, sum_loop acc gen = Raise e.
Proof.
  revert acc. induction gen as [|item gen IH]; intros acc [e He].
  - by apply elem_of_nil in He.
  - apply elem_of_cons in He as [<- | He].
    + destruct acc as [a | e0]; simpl; rewrite sum_loop_raised; eauto.
    + apply (IH (a ← acc; x ← item; Return (a + x))). eauto.
Qed.

Lemma sum_raises (gen : list (exc Q)) :
  (∃ e, Raise e ∈ gen) → ∃ e, sum gen = Raise e.
Proof. apply sum_loop_raises. Qed.

Lemma weighted_terms_missing (d : gmap string value)
    (items : list (string * Q)) (factor : string) (weight : Q) :
  (factor, weight) ∈ items →
  (∀ q, d !! (factor +:+ "_score") ≠ Some (Num q)) →
  ∃ e, Raise e ∈ weighted_terms d items.
Proof.
  intros Hin Hcell. unfold weighted_terms.
  destruct (d !! (factor +:+ "_score")) as [[s | q] |] eqn:E.
  - exists TypeError. apply list_elem_of_fmap. exists (factor, weight).
    split; [|done]. unfold iloc0. by rewrite E.
  - by destruct (Hcell q).
  - exists (KeyError (factor +:+ "_score")). apply list_elem_of_fmap.
    exists (factor, weight). split; [|done]. unfold iloc0. by rewrite E.
Qed.

(** C4 (as the code has it): when a sub-factor named in the weight table is
    absent from the input, or is not a number, the failure is caught inside
    [calculate_climate_risk_score], which returns the score 0.0; the scorer
    never surfaces a failure to its caller. *)
Theorem scoring_failure_returns_zero (d : gmap string value)
    (dimension factor : string) (items : list (string * Q)) (weight : Q) :
  (dimension, items) ∈ climate_risk_factors →
  (factor, weight) ∈ items →
  (∀ q, d !! (factor +:+ "_score") ≠ Some (Num q)) →
  (∃ e, calculate_body d = Raise e) ∧
  calculate_climate_risk_score d = Return 0.0 ∧
  (∀ d' : gmap string value,
     ∃ score, calculate_climate_risk_score d' = Return score).
Proof.
  intros Hdim Hin Hcell.
  assert (∃ e, calculate_body d = Raise e) as [e He].
  { rewrite calculate_body_items, climate_risk_factors_items in *.
    apply elem_of_cons in Hdim as [Hdim | Hdim];
      [|apply list_elem_of_singleton in Hdim];
      injection Hdim as -> ->.
    - destruct (sum_raises _ (weighted_terms_missing d _ _ _ Hin Hcell))
        as [e ->]. by exists e.
    - destruct (sum_raises _ (weighted_terms_missing d _ _ _ Hin Hcell))
        as [e ->].
      destruct (sum (weighted_terms d physical_items)); by eexists. }
  split_and!.
  - by exists e.
  - unfold calculate_climate_risk_score. by rewrite He.
  - intros d'. unfold calculate_climate_risk_score.
    destruct (calculate_body d'); by eexists.
Qed.

(** *** The weight table *)

(** C9 (as the code has it): in the static weight table every weight is
    non-negative; the physical-risk weights sum to 0.75 and the
    transition-risk weights to 0.60. *)
Theorem weight_table_totals :
  ∃ physical transition,
    climate_risk_factors =
      [ ("physical_risk", physical); ("transition_risk", transition) ] ∧
    Forall (λ item, 0 <= item.2) physical ∧
    Forall (λ item, 0 <= item.2) transition ∧
    weight_total physical == 0.75 ∧
    weight_total transition == 0.60.
Proof.
  exists physical_items, transition_items. split_and!.
  - reflexivity.
  - repeat constructor; simpl; lra.
  - repeat constructor; simpl; lra.
  - reflexivity.
  - reflexivity.
Qed.

(** *** Inputs that hold the seven weighted sub-factors *)

Section Factors.

Variable d : gmap string value.
Variables flood heat sea wildfire carbon regulatory technology : Q.
Hypothesis flood_cell : d !! "flood_risk_score" = Some (Num flood).
Hypothesis heat_cell : d !! "heat_stress_score" = Some (Num heat).
Hypothesis sea_cell : d !! "sea_level_rise_score" = Some (Num sea).
Hypothesis wildfire_cell : d !! "wildfire_risk_score" = Some (Num wildfire).
Hypothesis carbon_cell :
  d !! "carbon_price_exposure_score" = Some (Num carbon).
Hypothesis regulatory_cell :
  d !! "regulatory_compliance_score" = Some (Num regulatory).
Hypothesis technology_cell :
  d !! "technology_disruption_score" = Some (Num technology).

Lemma calculate_body_cells :
  calculate_body d =
  Return (accumulated_score flood heat sea wildfire carbon regulatory
     technology).
Proof using All.
  rewrite calculate_body_items.
  unfold sum, sum_loop, weighted_terms, physical_items, transition_items.
  cbv [map fold_left String.append]. unfold iloc0.
  rewrite flood_cell, heat_cell, sea_cell, wildfire_cell, carbon_cell,
    regulatory_cell, technology_cell.
  reflexivity.
Qed.

Lemma calculate_cells :
  calculate_climate_risk_score d =
  Return (accumulated_score flood heat sea wildfire carbon regulatory
     technology).
Proof using All.
  unfold calculate_climate_risk_score. by rewrite calculate_body_cells.
Qed.



End Factors.

Section Report.

Variable d : gmap string value.
Variables name location : value.
Variable industry : string.
Variables revenue carbon_footprint physical transition : Q.
Hypothesis name_cell : d !! "company_name" = Some name.
Hypothesis industry_cell : d !! "industry" = Some (Str industry).
Hypothesis location_cell : d !! "location" = Some location.
Hypothesis revenue_cell : d !! "revenue" = Some (Num revenue).
Hypothesis carbon_footprint_cell :
  d !! "carbon_footprint" = Some (Num carbon_footprint).
Hypothesis physical_cell : d !! "physical_risk_score" = Some (Num physical).
Hypothesis transition_cell :
  d !! "transition_risk_score" = Some (Num transition).

Lemma load_company_data_cells : load_company_data d = Return d.
Proof using name_cell industry_cell location_cell revenue_cell
  carbon_footprint_cell physical_cell transition_cell.
  unfold load_company_data, required_columns. cbn [forallb].
  rewrite name_cell, industry_cell, location_cell, revenue_cell,
    carbon_footprint_cell, physical_cell, transition_cell.
  by rewrite !bool_decide_eq_true_2 by eauto.
Qed.

End Report.

End Scoring.

(** ** Concrete inputs *)

Section Inputs.

Local Open Scope string_scope.
Local Open Scope list_scope.
Local Open Scope Q_scope.

(** Scoring an input without the flood-risk sub-factor fails inside the
    scorer with a [KeyError], and the caller receives the score 0.0 instead
    of a failure. *)
Lemma missing_factor_is_not_surfaced :
  without_flood_risk !! "flood_risk_score" = None ∧
  calculate_body without_flood_risk = Raise (KeyError "flood_risk_score") ∧
  calculate_climate_risk_score without_flood_risk = Return 0.0 ∧
  ¬ ∃ e, calculate_climate_risk_score without_flood_risk = Raise e.
Proof.
  split_and!; [by vm_compute.. |].
  intros [e He]. vm_compute in He. discriminate.
Qed.

Lemma scoring_failure_returns_zero_witness :
  (∃ e, calculate_body without_flood_risk = Raise e) ∧
  calculate_climate_risk_score without_flood_risk = Return 0.0 ∧
  (∀ d' : gmap string value,
     ∃ score, calculate_climate_risk_score d' = Return score).
Proof.
  apply (scoring_failure_returns_zero without_flood_risk
           "physical_risk" "flood_risk" physical_items 0.25).
  - left.
  - left.
  - intros q. vm_compute. discriminate.
Defined.

(** The physical-risk weights sum to 0.75, not to 1. *)
Lemma weights_do_not_sum_to_one :
  ¬ ∀ dimension items,
      (dimension, items) ∈ climate_risk_factors →
      Forall (λ item, 0 <= item.2) items ∧ weight_total items == 1.
Proof.
  intros H. destruct (H "physical_risk" physical_items) as [_ Hsum]; [left|].
  vm_compute in Hsum. discriminate.
Qed.


(** The bound 6.9 is attained when every sub-factor is 10. *)
Example all_tens_score :
  ∃ score,
    calculate_climate_risk_score (with_scores 10 10 10 10 10 10 10)
      = Return score ∧
    score == 6.9.
Proof. by eexists; split; vm_compute. Qed.

(** The form defaults give a compliant, low-risk report with the two
    opportunities of a renewable, low-carbon company and no risk. *)
Example form_defaults_report :
  ∃ report,
    generate_report form_defaults = Some report ∧
    esg_compliant report = true ∧
    esg_violations report = [] ∧
    esg_risks report = [] ∧
    climate_opportunities report =
      ["Renewable energy market growth"; "Low-carbon competitive advantage"] ∧
    recommendation report =
      "Low risk - suitable for investment consideration".
Proof. eexists. split; [by vm_compute | done]. Qed.

(** An excluded industry ends in "Do not proceed", whatever the score. *)
Example coal_mining_report :
  ∃ report,
    generate_report (<["industry" := Str "coal_mining"]> form_defaults)
      = Some report ∧
    esg_compliant report = false ∧
    esg_violations report = ["fossil_fuels"] ∧
    recommendation report =
      "Do not proceed - ESG exclusion list violations detected".
Proof. eexists. split; [by vm_compute | done]. Qed.

(** A record without a required column gives the empty report. *)
Example missing_column_report :
  generate_report (delete "location" form_defaults) = None.
Proof. by vm_compute. Qed.

(** The loan decision on the scenarios of the specification, and on a
    response without a risk score. *)
Example decide_scenarios :
  decide 750 1000000 = (Approved, "Low risk") ∧
  decide 550 60000 = (Rejected, "High risk") ∧
  step2 ∅ 50000 = Return (Rejected, "High risk") ∧
  step2 {[ "risk_score" := Num 700 ]} 1000 = Return (Approved, "Low risk").
Proof. by vm_compute. Qed.

End Inputs.

(** * Further properties *)

(** ** Loading the record and assembling the report *)

Section Reports.

Local Open Scope string_scope.
Local Open Scope list_scope.

Lemma calculate_returns (d : gmap string value) :
  ∃ score, calculate_climate_risk_score d = Return score.
Proof.
  unfold calculate_climate_risk_score.
  destruct (calculate_body d); by eexists.
Qed.

Lemma required_columns_forallb (d : gmap string value) :
  forallb (λ col, bool_decide (is_Some (d !! col))) required_columns = true ↔
  Forall (λ col, is_Some (d !! col)) required_columns.
Proof.
  rewrite forallb_forall, Forall_forall. split; intros H col Hin.
  - apply list_elem_of_In in Hin. specialize (H col Hin).
    by apply bool_decide_eq_true in H.
  - apply list_elem_of_In in Hin. by apply bool_decide_eq_true, H.
Qed.

(** [load_company_data] hands the record back unchanged when the seven
    required columns are present, and otherwise raises its [ValueError]. *)
Theorem load_company_data_required (d : gmap string value) :
  (Forall (λ col, is_Some (d !! col)) required_columns →
     load_company_data d = Return d) ∧
  (¬ Forall (λ col, is_Some (d !! col)) required_columns →
     load_company_data d =
       Raise (ValueError "Missing required columns in company data")).
Proof.
  unfold load_company_data.
  destruct (forallb _ required_columns) eqn:E.
  - apply required_columns_forallb in E. by split.
  - split; [|done]. intros H%required_columns_forallb. congruence.
Qed.

Lemma screen_esg_exclusions_inv (d : gmap string value) (compliant : bool)
    (violations : list string) :
  screen_esg_exclusions d = Return (compliant, violations) →
  ∃ s, d !! "industry" = Some (Str s).
Proof.
  unfold screen_esg_exclusions, iloc0.
  destruct (d !! "industry") as [[s | q] |]; [by exists s | done..].
Qed.

Lemma identify_esg_risks_inv (d : gmap string value) (risks : list string) :
  identify_esg_risks d = Return risks →
  ∃ c r p t,
    d !! "carbon_footprint" = Some (Num c) ∧ d !! "revenue" = Some (Num r) ∧
    d !! "physical_risk_score" = Some (Num p) ∧
    d !! "transition_risk_score" = Some (Num t).
Proof.
  unfold identify_esg_risks, iloc0.
  destruct (d !! "carbon_footprint") as [[? | c] |],
    (d !! "revenue") as [[? | r] |];
    cbn [mbind exc_bind div_cell]; try done.
  destruct (d !! "physical_risk_score") as [[? | p] |];
    cbn [mbind exc_bind gt_cell]; try done.
  destruct (d !! "transition_risk_score") as [[? | t] |];
    cbn [mbind exc_bind gt_cell]; try done.
  intros _. by exists c, r, p, t.
Qed.

Lemma generate_report_Some (d : gmap string value) (report : report) :
  generate_report d = Some report ↔
  ∃ compliant violations score risks opportunities name,
    load_company_data d = Return d ∧
    screen_esg_exclusions d = Return (compliant, violations) ∧
    calculate_climate_risk_score d = Return score ∧
    identify_esg_risks d = Return risks ∧
    assess_opportunities d = Return opportunities ∧
    d !! "company_name" = Some name ∧
    report =
      Report name compliant violations (round score 2) risks opportunities
        (_generate_recommendation compliant score).
Proof.
  unfold generate_report. split.
  - unfold load_company_data.
    destruct (forallb _ required_columns); [|done].
    cbn [mbind exc_bind].
    destruct (screen_esg_exclusions d) as [[compliant violations] | ];
      [|done].
    destruct (calculate_climate_risk_score d) as [score |]; [|done].
    destruct (identify_esg_risks d) as [risks |]; [|done].
    destruct (assess_opportunities d) as [opportunities |]; [|done].
    cbn [mbind exc_bind]. unfold iloc0.
    destruct (d !! "company_name") as [name |]; [|done].
    intros [= <-]. by exists compliant, violations, score, risks,
      opportunities, name.
  - intros (compliant & violations & score & risks & opportunities & name
            & Hload & Hscreen & Hscore & Hrisks & Hopps & Hname & ->).
    rewrite Hload. cbn [mbind exc_bind].
    rewrite Hscreen. cbn [mbind exc_bind].
    rewrite Hscore. cbn [mbind exc_bind].
    rewrite Hrisks. cbn [mbind exc_bind].
    rewrite Hopps. cbn [mbind exc_bind].
    unfold iloc0. by rewrite Hname.
Qed.

End Reports.

(** ** What a report holds *)

Section ReportContents.

Local Open Scope string_scope.
Local Open Scope list_scope.
Local Open Scope Q_scope.



Lemma missing_factor_zero (d : gmap string value) (dimension factor : string)
    (items : list (string * Q)) (weight : Q) :
  (dimension, items) ∈ climate_risk_factors →
  (factor, weight) ∈ items →
  (∀ q, d !! (factor +:+ "_score") ≠ Some (Num q)) →
  calculate_climate_risk_score d = Return 0.0.
Proof.
  intros Hdim Hin Hcell.
  destruct (sum_raises _ (weighted_terms_missing d _ _ _ Hin Hcell))
    as [e He].
  unfold calculate_climate_risk_score.
  rewrite calculate_body_items. rewrite climate_risk_factors_items in Hdim.
  apply elem_of_cons in Hdim as [Hdim | Hdim%list_elem_of_singleton];
    injection Hdim as -> ->.
  - by rewrite He.
  - rewrite He. by destruct (sum (weighted_terms d physical_items)).
Qed.

(** A report echoes the company name of the record; it is compliant exactly
    when it lists no violation, and its recommendation is "Do not proceed"
    exactly when it is not compliant. *)
Theorem report_consistent (d : gmap string value) (report : report) :
  generate_report d = Some report →
  d !! "company_name" = Some (company_name report) ∧
  (esg_compliant report = true ↔ esg_violations report = []) ∧
  (recommendation report =
     "Do not proceed - ESG exclusion list violations detected" ↔
   esg_compliant report = false).
Proof.
  intros (compliant & violations & score & risks & opportunities & name
          & _ & Hscreen & _ & _ & _ & Hname & ->)%generate_report_Some.
  destruct (screen_esg_exclusions_inv _ _ _ Hscreen) as [s Hs].
  rewrite (screen_industry d s Hs) in Hscreen.
  injection Hscreen as <- <-. simpl. split_and!.
  - done.
  - apply bool_decide_eq_true.
  - unfold _generate_recommendation.
    destruct (bool_decide _), (Qltb 8 score), (Qltb 5 score); by split.
Qed.

(** Whenever a report comes out for a record in which a sub-factor of the
    weight table is absent or not a number, its score is 0; a compliant
    company is then recommended as "Low risk". *)
Theorem missing_factor_reported_low_risk (d : gmap string value)
    (dimension factor : string) (items : list (string * Q)) (weight : Q)
    (report : report) :
  (dimension, items) ∈ climate_risk_factors →
  (factor, weight) ∈ items →
  (∀ q, d !! (factor +:+ "_score") ≠ Some (Num q)) →
  generate_report d = Some report →
  climate_risk_score report == 0 ∧
  (esg_compliant report = true →
   recommendation report =
     "Low risk - suitable for investment consideration").
Proof.
  intros Hdim Hin Hcell
    (compliant & violations & score & risks & opportunities & name
     & _ & _ & Hscore & _ & _ & _ & ->)%generate_report_Some.
  rewrite (missing_factor_zero d dimension factor items weight) in Hscore
    by done.
  injection Hscore as <-. simpl. split; [reflexivity|]. by intros ->.
Qed.

End ReportContents.

(** ** The scorer as a function of the sub-factors *)

Section ScoreShape.

Local Open Scope string_scope.
Local Open Scope list_scope.
Local Open Scope Q_scope.

(** The score and the risk labels read disjoint columns: a change of a
    column outside the seven weighted score columns leaves the score as it
    is, a change of a column outside the four rule columns leaves the risk
    labels as they are, and no column is of both kinds. *)
Theorem score_and_risks_read_disjoint_columns (d : gmap string value)
    (col : string) (v : value) :
  (col ∉ score_columns →
     calculate_climate_risk_score (<[col := v]> d) =
       calculate_climate_risk_score d ∧
     calculate_climate_risk_score (delete col d) =
       calculate_climate_risk_score d) ∧
  (col ∉ risk_columns →
     identify_esg_risks (<[col := v]> d) = identify_esg_risks d ∧
     identify_esg_risks (delete col d) = identify_esg_risks d) ∧
  (col ∈ score_columns → col ∉ risk_columns).
Proof.
  split_and!.
  - unfold score_columns. rewrite !not_elem_of_cons.
    intros (? & ? & ? & ? & ? & ? & ? & _).
    unfold calculate_climate_risk_score. rewrite !calculate_body_items.
    unfold sum, sum_loop, weighted_terms, physical_items, transition_items.
    cbv [map fold_left String.append]. unfold iloc0.
    by rewrite !lookup_insert_ne, !lookup_delete_ne by done.
  - unfold risk_columns. rewrite !not_elem_of_cons.
    intros (? & ? & ? & ? & _).
    unfold identify_esg_risks, iloc0.
    by rewrite !lookup_insert_ne, !lookup_delete_ne by done.
  - revert col. apply Forall_forall.
    apply (bool_decide_unpack _). by vm_compute.
Qed.

End ScoreShape.

(** ** Rules and screening under changes of the input *)

Section RuleShape.

Local Open Scope string_scope.
Local Open Scope list_scope.

Lemma append_assoc (s1 s2 s3 : string) :
  (s1 +:+ s2) +:+ s3 = s1 +:+ s2 +:+ s3.
Proof.
  induction s1 as [|c s1 IH]; [done|].
  by rewrite !append_cons_l, IH.
Qed.

Lemma lower_append (s1 s2 : string) :
  lower (s1 +:+ s2) = lower s1 +:+ lower s2.
Proof.
  induction s1 as [|c s1 IH]; [done|].
  rewrite append_cons_l. simpl. by rewrite IH, append_cons_l.
Qed.

Lemma assess_opportunities_inv (d : gmap string value)
    (opportunities : list string) :
  assess_opportunities d = Return opportunities →
  ∃ s, d !! "industry" = Some (Str s).
Proof.
  unfold assess_opportunities, iloc0.
  destruct (d !! "industry") as [[s | q] |]; [by exists s | done..].
Qed.

(** No input is reported both as "High carbon intensity" and as having a
    "Low-carbon competitive advantage", a zero revenue included. *)
Theorem carbon_labels_exclusive (d : gmap string value)
    (risks opportunities : list string) :
  identify_esg_risks d = Return risks →
  assess_opportunities d = Return opportunities →
  ¬ ("High carbon intensity" ∈ risks ∧
     "Low-carbon competitive advantage" ∈ opportunities).
Proof.
  intros Hrisks Hopps.
  destruct (identify_esg_risks_inv _ _ Hrisks)
    as (c & r & p & t & Hc & Hr & Hp & Ht).
  destruct (assess_opportunities_inv _ _ Hopps) as [s Hs].
  rewrite (identify_esg_risks_cells d c r p t) in Hrisks by done.
  rewrite (assess_opportunities_cells d c r s) in Hopps by done.
  injection Hrisks as <-. injection Hopps as <-.
  destruct (label_if_three (float64_gt (truediv c r) 100) (Qltb 7 p)
              (Qltb 6 t) _ _ _ three_risk_labels) as (_ & -> & _).
  destruct (label_if_three (str_in "renewable" (lower s))
              (float64_lt (truediv c r) 50) (str_in "green" (lower s))
              _ _ _ three_opportunity_labels) as (_ & _ & -> & _).
  destruct (truediv c r) as [q | | |]; simpl; [|by intros [] ..].
  rewrite !Qltb_lt. intros [H1 H2]. lra.
Qed.

(** Text added before or after an industry text never hides a violation:
    every category reported for the text is reported for the longer text,
    which is not compliant. *)
Theorem violation_survives_context (d : gmap string value)
    (pre s post category : string) (compliant : bool)
    (violations : list string) :
  screen_esg_exclusions (<["industry" := Str s]> d)
    = Return (compliant, violations) →
  category ∈ violations →
  ∃ violations',
    screen_esg_exclusions (<["industry" := Str (pre +:+ s +:+ post)]> d)
      = Return (false, violations') ∧
    category ∈ violations'.
Proof.
  rewrite (screen_industry _ s) by apply lookup_insert_eq.
  intros [= _ <-] Hin.
  rewrite (screen_industry _ (pre +:+ s +:+ post)) by apply lookup_insert_eq.
  assert (category ∈ violated (lower (pre +:+ s +:+ post))) as Hin'.
  { apply elem_of_violated in Hin
      as (industries & keyword & Hcat & Hkey & p1 & p2 & Hs).
    apply elem_of_violated. exists industries, keyword. split_and!; [done..|].
    exists (lower pre +:+ p1), (p2 +:+ lower post).
    by rewrite !lower_append, Hs, !append_assoc. }
  eexists. split; [|exact Hin'].
  rewrite bool_decide_eq_false_2; [done|].
  intros Hnil. rewrite Hnil in Hin'. by apply elem_of_nil in Hin'.
Qed.

End RuleShape.

(** ** Submissions of the company form *)

Section FormSubmission.

Local Open Scope string_scope.
Local Open Scope list_scope.
Local Open Scope Q_scope.

Variable f : ClimatePage.form.

Lemma form_calculate :
  calculate_climate_risk_score (ClimatePage.company_data f) =
  Return (accumulated_score
            (ClimatePage.flood_risk_score f) (ClimatePage.heat_stress_score f)
            (ClimatePage.sea_level_rise_score f)
            (ClimatePage.wildfire_risk_score f)
            (ClimatePage.carbon_price_exposure_score f)
            (ClimatePage.regulatory_compliance_score f)
            (ClimatePage.technology_disruption_score f)).
Proof. by apply calculate_cells. Qed.

Lemma form_report :
  generate_report (ClimatePage.company_data f) =
  Some (Report (Str (ClimatePage.company_name f))
          (bool_decide (violated (lower (ClimatePage.industry f)) = []))
          (violated (lower (ClimatePage.industry f)))
          (round (accumulated_score
                    (ClimatePage.flood_risk_score f)
                    (ClimatePage.heat_stress_score f)
                    (ClimatePage.sea_level_rise_score f)
                    (ClimatePage.wildfire_risk_score f)
                    (ClimatePage.carbon_price_exposure_score f)
                    (ClimatePage.regulatory_compliance_score f)
                    (ClimatePage.technology_disruption_score f)) 2)
          (label_if (float64_gt (truediv (ClimatePage.carbon_footprint f)
                                   (ClimatePage.revenue f)) 100)
             "High carbon intensity" ++
           label_if (Qltb 7 (ClimatePage.physical_risk_score f))
             "High physical climate risk" ++
           label_if (Qltb 6 (ClimatePage.transition_risk_score f))
             "High transition risk")
          (label_if (str_in "renewable" (lower (ClimatePage.industry f)))
             "Renewable energy market growth" ++
           label_if (float64_lt (truediv (ClimatePage.carbon_footprint f)
                                   (ClimatePage.revenue f)) 50)
             "Low-carbon competitive advantage" ++
           label_if (str_in "green" (lower (ClimatePage.industry f)))
             "Green technology innovation")
          (_generate_recommendation
             (bool_decide (violated (lower (ClimatePage.industry f)) = []))
             (accumulated_score
                (ClimatePage.flood_risk_score f)
                (ClimatePage.heat_stress_score f)
                (ClimatePage.sea_level_rise_score f)
                (ClimatePage.wildfire_risk_score f)
                (ClimatePage.carbon_price_exposure_score f)
                (ClimatePage.regulatory_compliance_score f)
                (ClimatePage.technology_disruption_score f)))).
Proof.
  apply generate_report_Some. eexists _, _, _, _, _, _. split_and!.
  - by eapply load_company_data_cells.
  - by apply screen_industry.
  - apply form_calculate.
  - by eapply identify_esg_risks_cells.
  - by eapply assess_opportunities_cells.
  - reflexivity.
  - reflexivity.
Qed.

(** Every submission of the form yields a report, never the empty dict:
    the record built from the widgets has every column that the tool reads,
    the [try] block of the scorer returns (its failure handler is not
    reached), the report echoes the company name, and the page shows no
    error. *)
Theorem form_submission_reported :
  ∃ report score,
    generate_report (ClimatePage.company_data f) = Some report ∧
    company_name report = Str (ClimatePage.company_name f) ∧
    calculate_body (ClimatePage.company_data f) = Return score ∧
    ∀ text, ClimatePage.Error text ∉ ClimatePage.run true f.
Proof.
  eexists _, _. split_and!.
  - apply form_report.
  - reflexivity.
  - by apply calculate_body_cells.
  - intros text. unfold ClimatePage.run. rewrite form_report.
    unfold ClimatePage.display.
    rewrite !not_elem_of_cons. split_and!; try done. apply not_elem_of_nil.
Qed.



End FormSubmission.

(** ** The page of the climate tool *)

Section ClimatePageLines.

Local Open Scope string_scope.
Local Open Scope list_scope.

Lemma generate_report_screening (d : gmap string value) (report : report) :
  generate_report d = Some report →
  ∃ s,
    esg_compliant report = bool_decide (violated (lower s) = []) ∧
    esg_violations report = violated (lower s).
Proof.
  intros (compliant & violations & score & risks & opportunities & name
          & _ & Hscreen & _ & _ & _ & _ & ->)%generate_report_Some.
  destruct (screen_esg_exclusions_inv _ _ _ Hscreen) as [s Hs].
  rewrite (screen_industry d s Hs) in Hscreen.
  injection Hscreen as <- <-. by exists s.
Qed.

Lemma join_or_none_category (violations : list string) :
  violations `sublist_of` esg_exclusion_list.*1 →
  ClimatePage.join_or_none violations = "None" →
  violations = [].
Proof.
  destruct violations as [|category rest]; [done|].
  intros Hsub Hjoin. exfalso.
  assert (category ∈ esg_exclusion_list.*1) as Hin
    by (eapply sublist_subseteq; [exact Hsub | left]).
  change (esg_exclusion_list.*1)
    with ["fossil_fuels"; "controversial_weapons"; "ethical_concerns";
          "environmental_violations"] in Hin.
  rewrite !elem_of_cons in Hin.
  destruct Hin as [-> | [-> | [-> | [-> | Hin]]]];
    [destruct rest; simpl in Hjoin; cbv [String.append] in Hjoin;
     discriminate Hjoin .. |].
  by apply elem_of_nil in Hin.
Qed.

(** On every page the line "ESG Compliant: Yes" appears exactly when the
    line "ESG Violations: None" does. *)
Theorem page_compliance_lines_agree (d : gmap string value) :
  ClimatePage.Markdown "**ESG Compliant**: Yes"
    ∈ ClimatePage.display (generate_report d) ↔
  ClimatePage.Markdown "**ESG Violations**: None"
    ∈ ClimatePage.display (generate_report d).
Proof.
  destruct (generate_report d) as [report|] eqn:Hreport;
    unfold ClimatePage.display.
  - destruct (generate_report_screening d report Hreport) as (s & -> & ->).
    pose proof (violated_sublist (lower s)) as Hsub.
    pose proof (join_or_none_category (violated (lower s)) Hsub) as Hnone.
    destruct (violated (lower s)) as [|category rest] eqn:Hv.
    + rewrite bool_decide_eq_true_2 by done. split; intros _.
      * do 3 right. left.
      * do 2 right. left.
    + rewrite bool_decide_eq_false_2 by done.
      split; intros H; exfalso;
        repeat (apply elem_of_cons in H as [H | H]);
        try (by apply elem_of_nil in H);
        try discriminate H;
        injection H as H; cbv [String.append] in H;
        try discriminate H.
      discriminate (Hnone (eq_sym H)).
  - split; intros H; exfalso;
      repeat (apply elem_of_cons in H as [H | H]);
      try (by apply elem_of_nil in H); discriminate H.
Qed.

End ClimatePageLines.

(** ** The loan decision as a function of score and amount *)

Section LoanDecision.

Local Open Scope string_scope.
Local Open Scope Q_scope.

(** Case analysis on the three comparisons of the decision logic. *)
Ltac decide_cases risk_score loan_amount :=
  unfold LoanApp.decide;
  destruct (Qleb 700 risk_score) eqn:?H700;
    [apply Qleb_le in H700 | apply Qleb_gt in H700];
  (destruct (Qleb 500 risk_score) eqn:?H500;
    [apply Qleb_le in H500 | apply Qleb_gt in H500]);
  (destruct (Qltb risk_score 700) eqn:?Hlt;
    [apply Qltb_lt in Hlt | apply Qltb_ge in Hlt]);
  destruct (Z.leb_spec loan_amount 50000); simpl.

Lemma decide_approved (risk_score : Q) (loan_amount : Z) :
  (LoanApp.decide risk_score loan_amount).1 = Approved ↔
  700 <= risk_score ∨ (500 <= risk_score ∧ (loan_amount ≤ 50000)%Z).
Proof.
  decide_cases risk_score loan_amount;
    (split; [intros; first [done | by left | by right | exfalso; lra]
            | intros [? | [? ?]]; first [done | exfalso; lra | exfalso; lia]]).
Qed.

(** A loan is approved exactly when the score is at least 700, or at least
    500 with an amount of at most 50000 (the upper bound 700 of the second
    rule decides nothing); the reason is "High risk" exactly for a
    rejection. *)
Theorem decide_approval_condition (risk_score : Q) (loan_amount : Z) :
  ((LoanApp.decide risk_score loan_amount).1 = Approved ↔
     700 <= risk_score ∨ (500 <= risk_score ∧ (loan_amount ≤ 50000)%Z)) ∧
  ((LoanApp.decide risk_score loan_amount).2 = "High risk" ↔
     (LoanApp.decide risk_score loan_amount).1 = Rejected).
Proof.
  split; [apply decide_approved|].
  decide_cases risk_score loan_amount; by split.
Qed.

(** An approval survives a higher score and a smaller amount. *)
Theorem decide_monotone (risk_score risk_score' : Q)
    (loan_amount loan_amount' : Z) :
  risk_score <= risk_score' →
  (loan_amount' ≤ loan_amount)%Z →
  (LoanApp.decide risk_score loan_amount).1 = Approved →
  (LoanApp.decide risk_score' loan_amount').1 = Approved.
Proof.
  intros Hscore Hamount. rewrite !decide_approved.
  intros [? | [? ?]]; [left; lra | right; split; [lra | lia]].
Qed.

Lemma decide_rejected_reason (risk_score : Q) (loan_amount : Z)
    (reason : string) :
  LoanApp.decide risk_score loan_amount = (Rejected, reason) →
  reason = "High risk".
Proof. unfold LoanApp.decide. by repeat case_match; intros [= <-]. Qed.

End LoanDecision.

(** ** The page of the loan checker *)

Section LoanPageRuns.

Local Open Scope string_scope.
Local Open Scope list_scope.

Variables (submitted : bool) (user_id : string) (loan_amount : Z).
Variables (SLACK_WEBHOOK_URL : option string) (response : option LoanPage.json).
Variable post_raises : bool.

Notation "'this_run'" :=
  (LoanPage.run submitted user_id loan_amount SLACK_WEBHOOK_URL response
     post_raises).

(** Case analysis along the control flow of one run. *)
Ltac webhook_cases :=
  destruct SLACK_WEBHOOK_URL as [webhook |]; simpl;
  [ destruct (String.eqb_spec webhook ""); simpl;
    [ | destruct post_raises; simpl ]
  | ].

Ltac score_cases number :=
  destruct (LoanApp.decide number loan_amount) as [[] verdict] eqn:?Hdecide;
  simpl;
  [ | pose proof (decide_rejected_reason _ _ _ Hdecide) as ->;
      webhook_cases ].

Ltac run_cases :=
  unfold LoanPage.run, LoanPage.try_body, step2;
  destruct submitted; simpl;
  [ destruct (String.eqb_spec user_id ""); simpl;
    [ | destruct response as [[fields |] |]; simpl;
        [ destruct (fields !! "risk_score") as [[words | number] |]
            eqn:?Hscore; simpl;
          [ | score_cases number | webhook_cases ]
        | | ] ]
  | ].

(** Membership of an effect in the list of a run, one element at a time. *)
Ltac effect_cases H :=
  repeat (apply elem_of_cons in H as [H | H]);
  try (by apply elem_of_nil in H); try discriminate H.

(** The Slack alert is posted exactly for a rejection with a configured,
    non-empty webhook: the run was submitted with a user id, the service
    answered with an object whose score is a number (0 when absent) and the
    decision on it is "Rejected".  The page of such a run shows that
    rejection. *)
Theorem slack_alert_iff_rejection (url uid : string) (score : value)
    (amount : Z) :
  (LoanPage.SlackPost url uid score amount ∈ this_run ↔
   submitted = true ∧ user_id ≠ "" ∧ uid = user_id ∧ amount = loan_amount ∧
   SLACK_WEBHOOK_URL = Some url ∧ url ≠ "" ∧
   ∃ risk_data risk_score,
     response = Some (LoanPage.JObject risk_data) ∧
     default (Num 0) (risk_data !! "risk_score") = Num risk_score ∧
     score = Num risk_score ∧
     LoanApp.decide risk_score loan_amount = (Rejected, "High risk")) ∧
  (LoanPage.SlackPost url uid score amount ∈ this_run →
   LoanPage.Results score Rejected "High risk" ∈ this_run).
Proof using Type.
  split_and!.
  - split.
    + run_cases; intros H; effect_cases H; injection H as -> -> -> ->;
        (split_and!; try done);
        eexists _, _; rewrite ?Hscore; by split_and!.
    + intros (-> & Hid & -> & -> & -> & Hurl & risk_data & risk_score & ->
              & Hdefault & -> & Hdecide).
      unfold LoanPage.run, LoanPage.try_body, step2.
      destruct (String.eqb_spec user_id ""); [done|].
      rewrite Hdefault, Hdecide.
      destruct (String.eqb_spec url ""); [done|].
      destruct post_raises; simpl; right; left.
  - run_cases; intros H; effect_cases H; injection H as -> -> -> ->; left.
Qed.

(** Whenever the page shows a decision, the audit log of the same run
    records that score and that decision. *)
Theorem results_are_logged (score : value) (shown : decision)
    (reason : string) :
  LoanPage.Results score shown reason ∈ this_run →
  LoanPage.AuditLog user_id score loan_amount shown ∈ this_run.
Proof using Type.
  run_cases; intros H; effect_cases H; injection H as -> -> ->;
    repeat first [ apply list_elem_of_here | apply list_elem_of_further ].
Qed.

(** When the service answers with an object whose score is not a number,
    the page shows only the error, no alert is posted, and the audit log
    still records a rejection. *)
Theorem text_score_logged_as_rejection (risk_data : gmap string value)
    (text : string) :
  submitted = true → user_id ≠ "" →
  response = Some (LoanPage.JObject risk_data) →
  risk_data !! "risk_score" = Some (Str text) →
  this_run =
    [ LoanPage.ApiError;
      LoanPage.AuditLog user_id (Str text) loan_amount Rejected ].
Proof using Type.
  intros -> Hid -> Hscore.
  unfold LoanPage.run, LoanPage.try_body, step2.
  destruct (String.eqb_spec user_id ""); [done|].
  by rewrite Hscore.
Qed.

(** The audit log is written exactly when the run was submitted with a
    user id and the service answered with a JSON object; it then holds the
    score of the object (0 when absent). *)
Theorem audit_log_written (uid : string) (score : value) (amount : Z)
    (logged : decision) :
  LoanPage.AuditLog uid score amount logged ∈ this_run →
  submitted = true ∧ user_id ≠ "" ∧ uid = user_id ∧ amount = loan_amount ∧
  ∃ risk_data,
    response = Some (LoanPage.JObject risk_data) ∧
    score = default (Num 0) (risk_data !! "risk_score").
Proof using Type.
  run_cases; intros H; effect_cases H; injection H as -> -> -> ->;
    (split_and!; try done);
    eexists; rewrite ?Hscore; by split_and!.
Qed.

End LoanPageRuns.

(** ** Concrete inputs of the further properties *)

Section FurtherInputs.

Local Open Scope string_scope.
Local Open Scope list_scope.
Local Open Scope Q_scope.

Lemma report_consistent_witness :
  ∃ report,
    generate_report form_defaults = Some report ∧
    form_defaults !! "company_name" = Some (company_name report) ∧
    (esg_compliant report = true ↔ esg_violations report = []) ∧
    (recommendation report =
       "Do not proceed - ESG exclusion list violations detected" ↔
     esg_compliant report = false).
Proof.
  destruct (generate_report form_defaults) as [report|] eqn:Hreport;
    [|vm_compute in Hreport; discriminate Hreport].
  exists report. split; [reflexivity|].
  exact (report_consistent form_defaults report Hreport).
Defined.

Lemma missing_factor_reported_low_risk_witness :
  ∃ report,
    generate_report without_flood_risk = Some report ∧
    climate_risk_score report == 0 ∧
    (esg_compliant report = true →
     recommendation report =
       "Low risk - suitable for investment consideration").
Proof.
  destruct (generate_report without_flood_risk) as [report|] eqn:Hreport;
    [|vm_compute in Hreport; discriminate Hreport].
  exists report. split; [reflexivity|].
  apply (missing_factor_reported_low_risk without_flood_risk
           "physical_risk" "flood_risk" physical_items 0.25 report).
  - left.
  - left.
  - intros q. vm_compute. discriminate.
  - exact Hreport.
Defined.

Lemma carbon_labels_exclusive_witness :
  ¬ ("High carbon intensity" ∈ ["High carbon intensity"] ∧
     "Low-carbon competitive advantage"
       ∈ ["Renewable energy market growth"]).
Proof.
  apply (carbon_labels_exclusive zero_revenue); reflexivity.
Defined.

Lemma violation_survives_context_witness :
  ∃ violations',
    screen_esg_exclusions
      (<["industry" := Str ("Clean " +:+ "Coal_Mining" +:+ " and solar")]>
         form_defaults)
      = Return (false, violations') ∧
    "fossil_fuels" ∈ violations'.
Proof.
  apply (violation_survives_context form_defaults "Clean " "Coal_Mining"
           " and solar" "fossil_fuels" false ["fossil_fuels"]).
  - reflexivity.
  - left.
Defined.


Lemma decide_monotone_witness :
  (LoanApp.decide 750 1000).1 = Approved.
Proof.
  apply (decide_monotone 699 750 50000 1000).
  - vm_compute. discriminate.
  - lia.
  - reflexivity.
Defined.

Lemma results_are_logged_witness :
  LoanPage.AuditLog "CUST-12345" (Num 550) 60000 Rejected ∈ rejected_run.
Proof.
  apply (results_are_logged true "CUST-12345" 60000
           (Some "https://hooks.example/T0")
           (Some (LoanPage.JObject {[ "risk_score" := Num 550 ]})) false
           (Num 550) Rejected "High risk").
  left.
Defined.

Lemma text_score_logged_as_rejection_witness :
  text_score_run =
    [ LoanPage.ApiError;
      LoanPage.AuditLog "CUST-12345" (Str "n/a") 60000 Rejected ].
Proof.
  apply (text_score_logged_as_rejection true "CUST-12345" 60000
           (Some "https://hooks.example/T0")
           (Some (LoanPage.JObject {[ "risk_score" := Str "n/a" ]})) false
           {[ "risk_score" := Str "n/a" ]} "n/a"); done.
Defined.

Lemma audit_log_written_witness :
  true = true ∧ "CUST-12345" ≠ "" ∧ "CUST-12345" = "CUST-12345" ∧
  60000%Z = 60000%Z ∧
  ∃ risk_data,
    Some (LoanPage.JObject {[ "risk_score" := Num 550 ]})
      = Some (LoanPage.JObject risk_data) ∧
    Num 550 = default (Num 0) (risk_data !! "risk_score").
Proof.
  apply (audit_log_written true "CUST-12345" 60000
           (Some "https://hooks.example/T0")
           (Some (LoanPage.JObject {[ "risk_score" := Num 550 ]})) false
           "CUST-12345" (Num 550) 60000 Rejected).
  do 2 right. left.
Defined.

End FurtherInputs.

(** * The binary64 embedding *)

(** ** The scorer and the report *)

Section Binary64Scoring.

Local Open Scope string_scope.
Local Open Scope list_scope.
#[local] Set Warnings "-inexact-float".

Lemma b64_climate_risk_factors_items :
  B64.climate_risk_factors =
  [ ("physical_risk", physical_weights);
    ("transition_risk", transition_weights) ].
Proof. reflexivity. Qed.

Lemma b64_sum_loop_weighted_terms (d : gmap string B64.cell)
    (x : string → float) (items : list (string * float)) (acc : float) :
  (∀ factor weight,
     (factor, weight) ∈ items →
     d !! (factor +:+ "_score") = Some (B64.Number (x factor))) →
  B64.sum_loop (Return acc) (B64.weighted_terms d items) =
  Return (fold_left (λ acc item, (acc + x item.1 * item.2)%float) items acc).
Proof.
  revert acc. induction items as [|[factor weight] items IH]; intros acc Hx.
  - reflexivity.
  - simpl. unfold B64.iloc0. rewrite (Hx factor weight) by left. simpl.
    apply IH. intros f w Hin. apply (Hx f w). by right.
Qed.

Lemma b64_calculate_body (d : gmap string B64.cell) (x : string → float) :
  holds_sub_factors d x →
  B64.calculate_body d =
  Return (0.6 * weighted_sum x physical_weights +
          0.4 * weighted_sum x transition_weights)%float.
Proof.
  intros Hx. unfold B64.calculate_body, B64.sum.
  change (getitem B64.climate_risk_factors "physical_risk")
    with (Return (A:=list (string * float)) physical_weights).
  change (getitem B64.climate_risk_factors "transition_risk")
    with (Return (A:=list (string * float)) transition_weights).
  cbn [mbind exc_bind].
  rewrite (b64_sum_loop_weighted_terms d x physical_weights).
  2:{ intros f w. apply (Hx "physical_risk" physical_weights). left. }
  cbn [mbind exc_bind].
  rewrite (b64_sum_loop_weighted_terms d x transition_weights).
  2:{ intros f w. apply (Hx "transition_risk" transition_weights).
      right. left. }
  reflexivity.
Qed.

Lemma b64_calculate_returns (d : gmap string B64.cell) :
  ∃ score, B64.calculate_climate_risk_score d = Return score.
Proof.
  unfold B64.calculate_climate_risk_score.
  destruct (B64.calculate_body d); by eexists.
Qed.

Lemma b64_screen_industry (d : gmap string B64.cell) (s : string) :
  d !! "industry" = Some (B64.Text s) →
  B64.screen_esg_exclusions d
  = Return (bool_decide (violated (lower s) = []), violated (lower s)).
Proof.
  intros H. unfold B64.screen_esg_exclusions, B64.iloc0. rewrite H.
  cbn [mbind exc_bind B64.lower_method].
  rewrite (violations_loop (mentions (lower s))), length_eqb_nil.
  reflexivity.
Qed.

Lemma b64_company_data_holds
    (industry : string) (revenue carbon_footprint physical transition : float)
    (flood heat sea wildfire carbon regulatory technology : float) :
  holds_sub_factors
    (B64.company_data industry revenue carbon_footprint physical transition
       flood heat sea wildfire carbon regulatory technology)
    (sub_factors flood heat sea wildfire carbon regulatory technology).
Proof.
  intros dimension items factor weight Hdim Hin.
  rewrite b64_climate_risk_factors_items in Hdim.
  repeat (apply elem_of_cons in Hdim as [Hdim | Hdim];
          [injection Hdim as -> ->|]); [| |by apply elem_of_nil in Hdim];
    repeat (apply elem_of_cons in Hin as [Hin | Hin];
            [injection Hin as -> ->; reflexivity|]);
    by apply elem_of_nil in Hin.
Qed.

Section Cells.

Variable d : gmap string B64.cell.
Variables c r p t : float.
Variable s : string.
Hypothesis carbon_footprint_cell :
  d !! "carbon_footprint" = Some (B64.Number c).
Hypothesis revenue_cell : d !! "revenue" = Some (B64.Number r).
Hypothesis physical_cell : d !! "physical_risk_score" = Some (B64.Number p).
Hypothesis transition_cell :
  d !! "transition_risk_score" = Some (B64.Number t).
Hypothesis industry_cell : d !! "industry" = Some (B64.Text s).

Lemma b64_identify_esg_risks_cells :
  B64.identify_esg_risks d =
  Return (label_if (100 <? c / r)%float "High carbon intensity" ++
          label_if (7 <? p)%float "High physical climate risk" ++
          label_if (6 <? t)%float "High transition risk").
Proof using carbon_footprint_cell revenue_cell physical_cell transition_cell.
  unfold B64.identify_esg_risks, B64.iloc0.
  rewrite carbon_footprint_cell, revenue_cell, physical_cell, transition_cell.
  cbn [mbind exc_bind B64.div_cell B64.gt_cell].
  by destruct (100 <? c / r)%float, (7 <? p)%float, (6 <? t)%float.
Qed.

Lemma b64_assess_opportunities_cells :
  B64.assess_opportunities d =
  Return (label_if (str_in "renewable" (lower s))
            "Renewable energy market growth" ++
          label_if (c / r <? 50)%float "Low-carbon competitive advantage" ++
          label_if (str_in "green" (lower s)) "Green technology innovation").
Proof using carbon_footprint_cell revenue_cell industry_cell.
  unfold B64.assess_opportunities, B64.iloc0.
  rewrite carbon_footprint_cell, revenue_cell, industry_cell.
  cbn [mbind exc_bind B64.div_cell B64.lower_method].
  by destruct (str_in "renewable" (lower s)), (c / r <? 50)%float,
    (str_in "green" (lower s)).
Qed.

Variables name location : B64.cell.
Hypothesis name_cell : d !! "company_name" = Some name.
Hypothesis location_cell : d !! "location" = Some location.

Lemma b64_load_company_data_cells : B64.load_company_data d = Return d.
Proof using name_cell industry_cell location_cell revenue_cell
  carbon_footprint_cell physical_cell transition_cell.
  unfold B64.load_company_data, required_columns. cbn [forallb].
  rewrite name_cell, industry_cell, location_cell, revenue_cell,
    carbon_footprint_cell, physical_cell, transition_cell.
  by rewrite !bool_decide_eq_true_2 by eauto.
Qed.

Variable round : float → Z → float.

Lemma b64_generate_report_cells (score : float) :
  B64.calculate_climate_risk_score d = Return score →
  B64.generate_report round d =
  Some (B64.Report name
          (bool_decide (violated (lower s) = [])) (violated (lower s))
          (round score 2)
          (label_if (100 <? c / r)%float "High carbon intensity" ++
           label_if (7 <? p)%float "High physical climate risk" ++
           label_if (6 <? t)%float "High transition risk")
          (label_if (str_in "renewable" (lower s))
             "Renewable energy market growth" ++
           label_if (c / r <? 50)%float "Low-carbon competitive advantage" ++
           label_if (str_in "green" (lower s)) "Green technology innovation")
          (B64._generate_recommendation
             (bool_decide (violated (lower s) = [])) score)).
Proof using All.
  intros Hscore. unfold B64.generate_report.
  rewrite b64_load_company_data_cells. cbn [mbind exc_bind].
  rewrite (b64_screen_industry d s industry_cell). cbn [mbind exc_bind].
  rewrite Hscore. cbn [mbind exc_bind].
  rewrite b64_identify_esg_risks_cells, b64_assess_opportunities_cells.
  cbn [mbind exc_bind]. unfold B64.iloc0. rewrite name_cell.
  reflexivity.
Qed.

Variable x : string → float.
Hypothesis factor_cells : holds_sub_factors d x.

(** C3: the composite score is 0.6 times the physical-risk dimension score
    plus 0.4 times the transition-risk dimension score, each dimension score
    being the sum of value times weight over the sub-factors that the weight
    table declares for it, added from 0 in the order of the table: these are
    the binary64 operations of the source and nothing is rounded to
    decimals.  The report rounds the score to two decimals once, for its
    score field only: the recommendation is taken from the unrounded
    score. *)
Theorem b64_score_weighted_and_rounded_once :
  ∃ score report physical transition,
    B64.climate_risk_factors =
      [ ("physical_risk", physical); ("transition_risk", transition) ] ∧
    B64.calculate_climate_risk_score d = Return score ∧
    score =
      (0.6 * weighted_sum x physical + 0.4 * weighted_sum x transition)%float ∧
    B64.generate_report round d = Some report ∧
    B64.climate_risk_score report = round score 2 ∧
    B64.recommendation report =
      B64._generate_recommendation (B64.esg_compliant report) score.
Proof using All.
  assert (B64.calculate_climate_risk_score d =
          Return (0.6 * weighted_sum x physical_weights +
                  0.4 * weighted_sum x transition_weights)%float) as Hscore.
  { unfold B64.calculate_climate_risk_score.
    by rewrite (b64_calculate_body d x factor_cells). }
  eexists _, _, physical_weights, transition_weights. split_and!.
  - reflexivity.
  - exact Hscore.
  - reflexivity.
  - by apply b64_generate_report_cells.
  - reflexivity.
  - reflexivity.
Qed.

End Cells.

End Binary64Scoring.

(** ** The risk and opportunity rules *)

Section Binary64Rules.

Local Open Scope string_scope.
Local Open Scope list_scope.
#[local] Set Warnings "-inexact-float".

(** A quotient by a zero of either sign is an infinity or a NaN. *)
Lemma b64_div_zero (c r : float) :
  r = 0%float ∨ r = (-0)%float →
  (c / r)%float = infinity ∨ (c / r)%float = neg_infinity ∨
  (c / r)%float = nan.
Proof.
  intros Hr. rewrite <- (SF2Prim_Prim2SF (c / r)), div_spec.
  destruct Hr as [-> | ->];
    destruct (Prim2SF c) as [[] | [] | | [] m e]; vm_compute; auto.
Qed.

Lemma b64_infinities_differ :
  neg_infinity ≠ infinity ∧ nan ≠ infinity ∧ nan ≠ neg_infinity.
Proof.
  split_and!; intros H.
  - apply (f_equal (λ x, (x <? 0)%float)) in H. vm_compute in H.
    discriminate H.
  - apply (f_equal (λ x, (x =? x)%float)) in H. vm_compute in H.
    discriminate H.
  - apply (f_equal (λ x, (x =? x)%float)) in H. vm_compute in H.
    discriminate H.
Qed.

(** C8: [identify_esg_risks] evaluates its three rules independently and
    returns the labels of all rules that fire, in the fixed order carbon
    intensity (the binary64 quotient footprint / revenue is > 100), physical
    risk (score > 7), transition risk (score > 6); [assess_opportunities]
    does likewise with renewable (the industry contains "renewable", case
    ignored), low carbon (the quotient is < 50) and green (the industry
    contains "green", case ignored).  Upper-case industry words match, and
    a quotient that is exactly 100, or a score that is exactly 6, fires no
    rule. *)
Theorem b64_rules_all_matching_in_order (d : gmap string B64.cell)
    (c r p t : float) (s : string) :
  d !! "carbon_footprint" = Some (B64.Number c) →
  d !! "revenue" = Some (B64.Number r) →
  d !! "physical_risk_score" = Some (B64.Number p) →
  d !! "transition_risk_score" = Some (B64.Number t) →
  d !! "industry" = Some (B64.Text s) →
  (∃ risks,
     B64.identify_esg_risks d = Return risks ∧
     risks `sublist_of`
       ["High carbon intensity"; "High physical climate risk";
        "High transition risk"] ∧
     ("High carbon intensity" ∈ risks ↔ (100 <? c / r)%float = true) ∧
     ("High physical climate risk" ∈ risks ↔ (7 <? p)%float = true) ∧
     ("High transition risk" ∈ risks ↔ (6 <? t)%float = true)) ∧
  (∃ opportunities,
     B64.assess_opportunities d = Return opportunities ∧
     opportunities `sublist_of`
       ["Renewable energy market growth"; "Low-carbon competitive advantage";
        "Green technology innovation"] ∧
     ("Renewable energy market growth" ∈ opportunities ↔
        ∃ pre post, lower s = pre +:+ "renewable" +:+ post) ∧
     ("Low-carbon competitive advantage" ∈ opportunities ↔
        (c / r <? 50)%float = true) ∧
     ("Green technology innovation" ∈ opportunities ↔
        ∃ pre post, lower s = pre +:+ "green" +:+ post)) ∧
  B64.identify_esg_risks on_the_thresholds
    = Return ["High physical climate risk"] ∧
  B64.assess_opportunities on_the_thresholds
    = Return ["Renewable energy market growth";
              "Green technology innovation"].
Proof.
  intros Hc Hr Hp Ht Hs. split_and!.
  - eexists. split; [by apply b64_identify_esg_risks_cells|].
    by destruct (label_if_three (100 <? c / r)%float (7 <? p)%float
                   (6 <? t)%float _ _ _ three_risk_labels)
      as (Hsub & -> & -> & ->).
  - eexists. split; [by eapply b64_assess_opportunities_cells|].
    destruct (label_if_three (str_in "renewable" (lower s))
                (c / r <? 50)%float (str_in "green" (lower s))
                _ _ _ three_opportunity_labels) as (Hsub & -> & -> & ->).
    by rewrite !str_in_substring.
  - by vm_compute.
  - by vm_compute.
Qed.

(** C7 (as the code has it): for every input whose revenue is 0.0 or -0.0
    and whose footprint is a number, the rules that divide the carbon
    footprint by the revenue raise nothing and substitute no sentinel: the
    quotient is the IEEE 754 one, an infinity or a NaN, and is compared with
    the thresholds as it is, so "High carbon intensity" is reported exactly
    when it is +infinity and "Low-carbon competitive advantage" exactly
    when it is -infinity. *)
Theorem b64_zero_revenue_gives_infinity (d : gmap string B64.cell)
    (c r p t : float) (s : string) :
  d !! "carbon_footprint" = Some (B64.Number c) →
  d !! "revenue" = Some (B64.Number r) →
  d !! "physical_risk_score" = Some (B64.Number p) →
  d !! "transition_risk_score" = Some (B64.Number t) →
  d !! "industry" = Some (B64.Text s) →
  r = 0%float ∨ r = (-0)%float →
  ((c / r)%float = infinity ∨ (c / r)%float = neg_infinity ∨
   (c / r)%float = nan) ∧
  (∃ risks,
     B64.identify_esg_risks d = Return risks ∧
     ("High carbon intensity" ∈ risks ↔ (c / r)%float = infinity)) ∧
  (∃ opportunities,
     B64.assess_opportunities d = Return opportunities ∧
     ("Low-carbon competitive advantage" ∈ opportunities ↔
        (c / r)%float = neg_infinity)).
Proof.
  intros Hc Hr Hp Ht Hs Hzero.
  pose proof (b64_div_zero c r Hzero) as Hq.
  destruct b64_infinities_differ as (Hni & Hnan & Hnan').
  split_and!; [exact Hq | |].
  - eexists. split; [by apply b64_identify_esg_risks_cells|].
    destruct (label_if_three (100 <? c / r)%float (7 <? p)%float
                (6 <? t)%float _ _ _ three_risk_labels) as (_ & -> & _).
    destruct Hq as [-> | [-> | ->]]; vm_compute; split; congruence.
  - eexists. split; [by eapply b64_assess_opportunities_cells|].
    destruct (label_if_three (str_in "renewable" (lower s))
                (c / r <? 50)%float (str_in "green" (lower s))
                _ _ _ three_opportunity_labels) as (_ & _ & -> & _).
    destruct Hq as [-> | [-> | ->]]; vm_compute; split; congruence.
Qed.

Lemma b64_screen_esg_exclusions_inv (d : gmap string B64.cell)
    (compliant : bool) (violations : list string) :
  B64.screen_esg_exclusions d = Return (compliant, violations) →
  ∃ s, d !! "industry" = Some (B64.Text s).
Proof.
  unfold B64.screen_esg_exclusions, B64.iloc0.
  destruct (d !! "industry") as [[s | x] |]; [by exists s | done..].
Qed.

Lemma b64_identify_esg_risks_inv (d : gmap string B64.cell)
    (risks : list string) :
  B64.identify_esg_risks d = Return risks →
  ∃ c r p t,
    d !! "carbon_footprint" = Some (B64.Number c) ∧
    d !! "revenue" = Some (B64.Number r) ∧
    d !! "physical_risk_score" = Some (B64.Number p) ∧
    d !! "transition_risk_score" = Some (B64.Number t).
Proof.
  unfold B64.identify_esg_risks, B64.iloc0.
  destruct (d !! "carbon_footprint") as [[? | c] |],
    (d !! "revenue") as [[? | r] |];
    cbn [mbind exc_bind B64.div_cell]; try done.
  destruct (d !! "physical_risk_score") as [[? | p] |];
    cbn [mbind exc_bind B64.gt_cell]; try done.
  destruct (d !! "transition_risk_score") as [[? | t] |];
    cbn [mbind exc_bind B64.gt_cell]; try done.
  intros _. by exists c, r, p, t.
Qed.

(** For records whose cells are text or binary64 numbers, [generate_report]
    returns a report exactly when the required columns are present, the
    industry is text and the four columns of the risk rules are numbers;
    the sub-factor columns of the scorer play no part in it. *)
Theorem b64_generate_report_reportable (round : float → Z → float)
    (d : gmap string B64.cell) :
  is_Some (B64.generate_report round d) ↔ reportable d.
Proof.
  split.
  - intros [report Hreport]. revert Hreport.
    unfold B64.generate_report, B64.load_company_data.
    destruct (forallb _ required_columns) eqn:Hcols; [|done].
    cbn [mbind exc_bind].
    destruct (B64.screen_esg_exclusions d) as [[compliant violations] |]
      eqn:Hscreen; [|done].
    cbn [mbind exc_bind].
    destruct (B64.calculate_climate_risk_score d) as [score |]; [|done].
    cbn [mbind exc_bind].
    destruct (B64.identify_esg_risks d) as [risks |] eqn:Hrisks; [|done].
    intros _.
    destruct (b64_screen_esg_exclusions_inv _ _ _ Hscreen) as [s Hs].
    destruct (b64_identify_esg_risks_inv _ _ Hrisks)
      as (c & r & p & t & Hc & Hr & Hp & Ht).
    rewrite forallb_forall in Hcols.
    assert (∀ col, col ∈ required_columns → is_Some (d !! col)) as Hall.
    { intros col Hin%list_elem_of_In. specialize (Hcols col Hin).
      by apply bool_decide_eq_true in Hcols. }
    unfold reportable. split_and!; eauto;
      apply Hall; unfold required_columns; set_solver.
  - intros ([name Hname] & [s Hs] & [location Hl] & [r Hr] & [c Hc] & [p Hp]
            & [t Ht]).
    destruct (b64_calculate_returns d) as [score Hscore].
    eexists. by eapply b64_generate_report_cells.
Qed.

End Binary64Rules.

(** ** Concrete inputs of the binary64 embedding *)

Section Binary64Inputs.

Local Open Scope string_scope.
Local Open Scope list_scope.
#[local] Set Warnings "-inexact-float".

(** A score of 5.0000000000000009 is "Moderate" although its report holds
    the rounded 5.0, which alone would be "Low"; a score of
    3.6450000000000005 is reported with two decimals, as 3.65. *)
Lemma b64_score_weighted_and_rounded_once_witness :
  (∃ score report,
     B64.calculate_climate_risk_score just_above_five = Return score ∧
     score = 5.0000000000000009%float ∧
     B64.generate_report B64.numpy_round just_above_five = Some report ∧
     B64.climate_risk_score report = 5%float ∧
     B64.recommendation report = "Moderate risk - proceed with caution" ∧
     B64._generate_recommendation true (B64.climate_risk_score report) =
       "Low risk - suitable for investment consideration") ∧
  (∃ score report,
     B64.calculate_climate_risk_score two_decimals = Return score ∧
     score = 3.6450000000000005%float ∧
     B64.generate_report B64.numpy_round two_decimals = Some report ∧
     B64.climate_risk_score report = 3.65%float).
Proof.
  split.
  - destruct (b64_score_weighted_and_rounded_once just_above_five
                2000000 100000000 4.5 3.2 "Renewable Energy"
                eq_refl eq_refl eq_refl eq_refl eq_refl
                (B64.Text "GreenTech Solutions") (B64.Text "California")
                eq_refl eq_refl B64.numpy_round
                (sub_factors 9.9 4.4 8.0 9.3 7.6 2.9 7.3)
                (b64_company_data_holds _ _ _ _ _ _ _ _ _ _ _ _))
      as (score & report & physical & transition & Htable & Hscore & Hsum
          & Hreport & Hrounded & Hrec).
    injection Htable as <- <-.
    exists score, report. split_and!.
    + exact Hscore.
    + rewrite Hsum. by vm_compute.
    + exact Hreport.
    + rewrite Hrounded, Hsum. by vm_compute.
    + rewrite Hrec, Hsum. vm_compute in Hreport.
      injection Hreport as <-. by vm_compute.
    + rewrite Hrounded, Hsum. by vm_compute.
  - destruct (b64_score_weighted_and_rounded_once two_decimals
                2000000 100000000 4.5 3.2 "Renewable Energy"
                eq_refl eq_refl eq_refl eq_refl eq_refl
                (B64.Text "GreenTech Solutions") (B64.Text "California")
                eq_refl eq_refl B64.numpy_round
                (sub_factors 6.9 9.3 0.5 6.7 1.1 3.2 8.0)
                (b64_company_data_holds _ _ _ _ _ _ _ _ _ _ _ _))
      as (score & report & physical & transition & Htable & Hscore & Hsum
          & Hreport & Hrounded & Hrec).
    injection Htable as <- <-.
    exists score, report. split_and!.
    + exact Hscore.
    + rewrite Hsum. by vm_compute.
    + exact Hreport.
    + rewrite Hrounded, Hsum. by vm_compute.
Defined.

(** With a revenue of 0.0 the division raises nothing and the infinite
    quotient passes the carbon-intensity threshold, so the label reaches the
    report; with a revenue of -0.0 the quotient is -infinity and the
    low-carbon label is reported instead. *)
Lemma b64_zero_revenue_is_not_an_error :
  B64.div_cell (B64.Number 2000000) (B64.Number 0) = Return infinity ∧
  B64.identify_esg_risks revenue_zero = Return ["High carbon intensity"] ∧
  (∃ report,
     B64.generate_report B64.numpy_round revenue_zero = Some report ∧
     B64.esg_risks report = ["High carbon intensity"]) ∧
  B64.assess_opportunities revenue_negative_zero =
    Return ["Renewable energy market growth";
            "Low-carbon competitive advantage"].
Proof.
  split_and!; [by vm_compute.. | | by vm_compute].
  eexists. split; [by vm_compute | reflexivity].
Qed.

Lemma b64_zero_revenue_gives_infinity_witness :
  ((2000000 / -0)%float = infinity ∨ (2000000 / -0)%float = neg_infinity ∨
   (2000000 / -0)%float = nan) ∧
  (∃ risks,
     B64.identify_esg_risks revenue_negative_zero = Return risks ∧
     ("High carbon intensity" ∈ risks ↔ (2000000 / -0)%float = infinity)) ∧
  (∃ opportunities,
     B64.assess_opportunities revenue_negative_zero = Return opportunities ∧
     ("Low-carbon competitive advantage" ∈ opportunities ↔
        (2000000 / -0)%float = neg_infinity)).
Proof.
  apply (b64_zero_revenue_gives_infinity revenue_negative_zero 2000000 (-0)
           4.5 3.2 "Renewable Energy"); try reflexivity.
  by right.
Defined.

(** At a quotient of exactly 100 and a transition risk of exactly 6 only the
    physical rule fires; the upper-case industry words fire both text
    rules. *)
Lemma b64_rules_all_matching_in_order_witness :
  (∃ risks,
     B64.identify_esg_risks on_the_thresholds = Return risks ∧
     risks `sublist_of`
       ["High carbon intensity"; "High physical climate risk";
        "High transition risk"] ∧
     ("High carbon intensity" ∈ risks ↔ (100 <? 30.0 / 0.3)%float = true) ∧
     ("High physical climate risk" ∈ risks ↔ (7 <? 7.5)%float = true) ∧
     ("High transition risk" ∈ risks ↔ (6 <? 6.0)%float = true)) ∧
  (∃ opportunities,
     B64.assess_opportunities on_the_thresholds = Return opportunities ∧
     opportunities `sublist_of`
       ["Renewable energy market growth"; "Low-carbon competitive advantage";
        "Green technology innovation"] ∧
     ("Renewable energy market growth" ∈ opportunities ↔
        ∃ pre post,
          lower "RENEWABLE Energy, Green Tech" = pre +:+ "renewable" +:+ post) ∧
     ("Low-carbon competitive advantage" ∈ opportunities ↔
        (30.0 / 0.3 <? 50)%float = true) ∧
     ("Green technology innovation" ∈ opportunities ↔
        ∃ pre post,
          lower "RENEWABLE Energy, Green Tech" = pre +:+ "green" +:+ post)) ∧
  B64.identify_esg_risks on_the_thresholds
    = Return ["High physical climate risk"] ∧
  B64.assess_opportunities on_the_thresholds
    = Return ["Renewable energy market growth";
              "Green technology innovation"].
Proof.
  apply (b64_rules_all_matching_in_order on_the_thresholds 30.0 0.3 7.5 6.0
           "RENEWABLE Energy, Green Tech"); reflexivity.
Defined.

End Binary64Inputs.
